(** * Provisioning scripts for catalog tags, custom metadata and enumerations

    A shallow embedding of [createTags.py], [custom_metadata/cm_generator.py]
    and [options/options_generator.py].  The scripts are imperative glue
    around a vendor SDK: the embedding threads the remote catalog as an
    explicit world, records every observable action in a trace and carries
    Python exceptions in the result. *)

From stdpp Require Import gmap strings list pretty.
From Stdlib Require Import ZArith.

Local Open Scope string_scope.
Local Open Scope list_scope.

(** ** Python exceptions and results *)

Inductive exn :=
| NotFoundError
| KeyError (key : string)
| TypeError (msg : string)
| UnboundLocalError (var : string)
| ValueError (msg : string)
| OSError (msg : string)
| SdkError (msg : string).

(** A statement ends normally, raises an [Exception], or leaves the
    interpreter through [sys.exit]; [except Exception] does not catch the
    last. *)
Inductive Res (A : Type) :=
| Ok (a : A)
| Raise (e : exn)
| Exit (code : Z).
Arguments Ok {A} a.
Arguments Raise {A} e.
Arguments Exit {A} code.

Definition exn_str (e : exn) : string :=
  match e with
  | NotFoundError => "not found"
  | KeyError k => "'" +:+ k +:+ "'"
  | TypeError m => m
  | UnboundLocalError v =>
      "cannot access local variable '" +:+ v +:+
      "' where it is not associated with a value"
  | ValueError m => m
  | OSError m => m
  | SdkError m => m
  end.

(** ** Data model of the SDK objects the scripts build *)

Inductive AtlanCustomAttributePrimitiveType :=
| STRING | URL | OPTIONS | USERS | GROUPS | BOOLEAN | INTEGER | SQL | DATE
| DECIMAL.

(** The keyword arguments of [AttributeDef.create]; the same seven
    [applicable_*] attributes are the ones the update branch assigns. *)
Record AttributeDef := {
  display_name : string;
  attribute_type : option AtlanCustomAttributePrimitiveType;
  options_name : option string;
  multi_valued : option bool;
  applicable_connections : gset string;
  applicable_glossaries : gset string;
  applicable_domains : gset string;
  applicable_asset_types : gset string;
  applicable_glossary_types : gset string;
  applicable_domain_types : gset string;
  applicable_other_asset_types : gset string
}.

(** [CustomMetadataDef.Options.with_logo_from_icon(icon, color)]. *)
Record LogoOptions := { logo_icon : string; logo_color : string }.

Record CustomMetadataDef := {
  cm_display_name : string;
  attribute_defs : list AttributeDef;
  cm_options : option LogoOptions
}.

Record AtlanTagDef := {
  tag_def_name : string;
  tag_def_color : option string;
  tag_def_emoji : option string;
  tag_def_icon : option string;
  tag_def_description : option string
}.

Record EnumDef := {
  enum_name : option string;
  enum_values : option (list string);
  enum_replace_existing : option bool
}.

(** What [client.typedef.create] and [client.typedef.update] accept. *)
Inductive TypeDef :=
| TagTypeDef (d : AtlanTagDef)
| CustomMetadataTypeDef (d : CustomMetadataDef)
| EnumTypeDef (d : EnumDef).

(** One hit of [client.asset.search]. *)
Record SearchResult := { qualified_name : option string }.

(** ** Configuration files *)

(** A JSON object whose iteration order matters: the pairs in insertion
    order.  A Python dict has each key once ([dict_wf]). *)
Abbreviation dict V := (list (string * V)) (only parsing).

Definition keys {V} (d : dict V) : list string := d.*1.

Definition dict_wf {V} (d : dict V) : Prop := NoDup (keys d).

Fixpoint dict_get {V} (d : dict V) (k : string) : option V :=
  match d with
  | [] => None
  | (k', v) :: d' => if decide (k' = k) then Some v else dict_get d' k
  end.

Definition dict_pop {V} (d : dict V) (k : string) : dict V :=
  filter (λ kv, kv.1 ≠ k) d.

(** One value of the [attributes] object of a custom-metadata item, seen
    through the [attr.get(...)] reads of the script; [None] is a key that is
    absent or null. *)
Record AttrConfig := {
  cfg_type : option string;
  cfg_options : option string;
  cfg_multivalue : option bool;
  cfg_applicable_connections : option (list string);
  cfg_applicable_asset_types : option (list string);
  cfg_applicable_glossaries : option (list string);
  cfg_applicable_glossary_types : option (list string);
  cfg_applicable_other_asset_types : option (list string);
  cfg_applicable_domains : option (list string);
  cfg_applicable_domain_types : option (list string)
}.

(** One item of the custom-metadata JSON list: [item.get("name")],
    [item.get("attributes")], ["icon" in item], ["emoji" in item]. *)
Record Item := {
  item_name : option string;
  item_attributes : dict AttrConfig;
  item_has_icon : bool;
  item_has_emoji : bool
}.

(** One item of the enumeration JSON list. *)
Record EnumItem := {
  enum_item_name : option string;
  enum_item_values : option (list string)
}.

(** What [load_json_from_file] finds at the path given on the command
    line: nothing, a directory, a file that does not parse or cannot be read
    (with the text of the exception), or a JSON list. *)
Inductive JsonFile (A : Type) :=
| NoSuchPath
| IsDirectory
| InvalidJson (details : string)
| Unreadable (details : string)
| JsonData (data : list A).
Arguments NoSuchPath {A}.
Arguments IsDirectory {A}.
Arguments InvalidJson {A} details.
Arguments Unreadable {A} details.
Arguments JsonData {A} data.

(** What [load_tag_config] finds: no file, a mapping without the [tags] key,
    or the list under [tags].  A tag entry is a mapping from keys to
    strings. *)
Inductive YamlFile :=
| YamlMissing
| YamlWithoutTags
| YamlTags (tags : list (gmap string string)).

(** ** Observable actions

    A remote write is recorded with its outcome: [None] when the catalog
    accepted it, the exception otherwise. *)

Inductive event :=
| EvPrint (msg : string)
| EvStderr (msg : string)
| EvOpenFile (path : string)
| EvClient (base_url api_key : string)
| EvSearch (asset_type : string)
| EvGetCustomMetadata (name : option string)
| EvGetByName (name : option string)
| EvCreate (d : TypeDef) (error : option exn)
| EvUpdate (d : TypeDef) (error : option exn).

(** The remote write calls among the events. *)
Definition is_write (e : event) : bool :=
  match e with
  | EvCreate _ _ | EvUpdate _ _ => true
  | _ => false
  end.

(** Everything that happens before the client issues a request: the
    remaining events are the work of a script. *)
Definition is_work (e : event) : bool :=
  match e with
  | EvPrint _ | EvStderr _ => false
  | _ => true
  end.

(** ** The static universes of [cm_generator.py] *)

Definition _complete_type_list : gset string :=
  list_to_set [
    "ADLSAccount"; "ADLSContainer"; "ADLSObject"; "AnaplanPage";
    "AnaplanList"; "AnaplanLineItem"; "AnaplanWorkspace"; "AnaplanModule";
    "AnaplanModel"; "AnaplanApp"; "AnaplanDimension"; "AnaplanView";
    "APIObject"; "APIQuery"; "APIField"; "APIPath"; "APISpec";
    "Application"; "ApplicationField"; "Collection"; "Query"; "BIProcess";
    "Badge"; "Column"; "ColumnProcess"; "Connection"; "CustomEntity";
    "DataStudioAsset"; "DataverseAttribute"; "DataverseEntity"; "Database";
    "DbtColumnProcess"; "DbtMetric"; "DbtModel"; "DbtModelColumn";
    "DbtProcess"; "DbtSource"; "Folder"; "GCSBucket"; "GCSObject";
    "Insight"; "KafkaConsumerGroup"; "KafkaTopic"; "Process"; "Link";
    "LookerDashboard"; "LookerExplore"; "LookerField"; "LookerFolder";
    "LookerLook"; "LookerModel"; "LookerProject"; "LookerQuery";
    "LookerTile"; "LookerView"; "MCIncident"; "MCMonitor";
    "MaterialisedView"; "MetabaseCollection"; "MetabaseDashboard";
    "MetabaseQuestion"; "ModeChart"; "ModeCollection"; "ModeQuery";
    "ModeReport"; "ModeWorkspace"; "PowerBIColumn"; "PowerBIDashboard";
    "PowerBIDataflow"; "PowerBIDataset"; "PowerBIDatasource";
    "PowerBIMeasure"; "PowerBIPage"; "PowerBIReport"; "PowerBITable";
    "PowerBITile"; "PowerBIWorkspace"; "PresetChart"; "PresetDashboard";
    "PresetDataset"; "PresetWorkspace"; "Procedure"; "QlikApp"; "QlikChart";
    "QlikDataset"; "QlikSheet"; "QlikSpace"; "QlikStream";
    "QuickSightAnalysis"; "QuickSightAnalysisVisual"; "QuickSightDashboard";
    "QuickSightDashboardVisual"; "QuickSightDataset";
    "QuickSightDatasetField"; "QuickSightFolder"; "Readme";
    "ReadmeTemplate"; "RedashDashboard"; "RedashQuery";
    "RedashVisualization"; "S3Bucket"; "S3Object"; "SalesforceDashboard";
    "SalesforceField"; "SalesforceObject"; "SalesforceOrganization";
    "SalesforceReport"; "Schema"; "SigmaDataElement";
    "SigmaDataElementField"; "SigmaDataset"; "SigmaDatasetColumn";
    "SigmaPage"; "SigmaWorkbook"; "SnowflakePipe"; "SnowflakeStream";
    "SnowflakeTag"; "SupersetChart"; "SupersetDashboard"; "SupersetDataset";
    "Table"; "TablePartition"; "TableauCalculatedField"; "TableauDashboard";
    "TableauDatasource"; "TableauDatasourceField"; "TableauFlow";
    "TableauMetric"; "TableauProject"; "TableauSite"; "TableauWorkbook";
    "TableauWorksheet"; "ThoughtspotAnswer"; "ThoughtspotDashlet";
    "ThoughtspotLiveboard"; "View"
  ].

Definition _all_glossary_types : gset string :=
  list_to_set ["AtlasGlossary"; "AtlasGlossaryCategory"; "AtlasGlossaryTerm"].

Definition _all_domains : gset string := list_to_set ["*/super"].

Definition _all_domain_types : gset string :=
  list_to_set ["DataDomain"; "DataProduct"].

Definition _all_other_types : gset string := list_to_set ["File"].

(** The [mapping] table of [main]. *)
Definition mapping : gmap string AtlanCustomAttributePrimitiveType :=
  list_to_map [
    ("Text", STRING); ("URL", URL); ("Enum", OPTIONS); ("Users", USERS);
    ("Groups", GROUPS); ("Boolean", BOOLEAN); ("Int", INTEGER); ("SQL", SQL);
    ("Date", DATE); ("Decimal", DECIMAL) ].

(** [mapping.get(attr.get("type"))]: an absent type is the key [None], which
    the table does not hold. *)
Definition mapping_get (k : option string)
  : option AtlanCustomAttributePrimitiveType :=
  k ≫= (mapping !!.).

(** ** String helpers of the scripts *)

Definition newline : string := String (Ascii.ascii_of_nat 10) "".

(** [str.lower] on the ASCII letters. *)
Definition ascii_lower (c : Ascii.ascii) : Ascii.ascii :=
  let n := Ascii.nat_of_ascii c in
  if bool_decide (65 ≤ n ≤ 90)%nat then Ascii.ascii_of_nat (n + 32) else c.

Fixpoint lower (s : string) : string :=
  match s with
  | EmptyString => EmptyString
  | String c s' => String (ascii_lower c) (lower s')
  end.

(** [s.endswith(suffix)]. *)
Definition endswith (s suffix : string) : bool :=
  bool_decide (String.length suffix ≤ String.length s)%nat &&
  bool_decide
    (String.substring (String.length s - String.length suffix)
       (String.length suffix) s = suffix).

(** Truth value of a string-or-None, as [if x:] and [not x] take it. *)
Definition truthy (x : option string) : bool :=
  match x with
  | Some s => bool_decide (s ≠ "")
  | None => false
  end.

(** ** The SDK and the remote catalog

    The vendor SDK is not part of the repository.  Its remote operations are
    transitions of an abstract [World]; its local constructors store their
    arguments and may reject them, which the [*_check] fields decide. *)

Record Sdk (World : Type) := {
  AtlanClient_check : string → string → option exn;
  asset_search : string → World → (exn + list SearchResult) * World;
  get_custom_metadata_def :
    option string → World → (exn + CustomMetadataDef) * World;
  typedef_get_by_name : option string → World → (exn + TypeDef) * World;
  typedef_create : TypeDef → World → option exn * World;
  typedef_update : TypeDef → World → option exn * World;
  AttributeDef_check : AttributeDef → option exn;
  CustomMetadataDef_check : string → option exn;
  AtlanTagColor_member : string → bool;
  AtlanIcon_member : string → bool;
  AtlanTagDef_check : AtlanTagDef → option exn;
  EnumDef_check : EnumDef → option exn
}.
Arguments AtlanClient_check {World} _ _ _.
Arguments asset_search {World} _ _ _.
Arguments get_custom_metadata_def {World} _ _ _.
Arguments typedef_get_by_name {World} _ _ _.
Arguments typedef_create {World} _ _ _.
Arguments typedef_update {World} _ _ _.
Arguments AttributeDef_check {World} _ _.
Arguments CustomMetadataDef_check {World} _ _.
Arguments AtlanTagColor_member {World} _ _.
Arguments AtlanIcon_member {World} _ _.
Arguments AtlanTagDef_check {World} _ _.
Arguments EnumDef_check {World} _ _.

(** ** The monad of a running script *)

Section Script.
Context {World : Type} (sdk : Sdk World).

(** A computation takes the world to a result, the next world and the
    events it emitted. *)
Definition M (A : Type) : Type := World → Res A * World * list event.

Definition ret {A} (a : A) : M A := λ w, (Ok a, w, []).

Definition bind {A B} (m : M A) (f : A → M B) : M B :=
  λ w,
    match m w with
    | (Ok a, w1, t1) =>
        match f a w1 with
        | (r, w2, t2) => (r, w2, t1 ++ t2)
        end
    | (Raise e, w1, t1) => (Raise e, w1, t1)
    | (Exit c, w1, t1) => (Exit c, w1, t1)
    end.

Definition raise {A} (e : exn) : M A := λ w, (Raise e, w, []).

Definition sys_exit {A} (code : Z) : M A := λ w, (Exit code, w, []).

Definition emit (ev : event) : M unit := λ w, (Ok tt, w, [ev]).

Definition print (msg : string) : M unit := emit (EvPrint msg).

(** A read of the remote: the event, then the answer or the exception. *)
Definition remote_read {A} (ev : event) (op : World → (exn + A) * World)
  : M A :=
  λ w,
    match op w with
    | (inr a, w') => (Ok a, w', [ev])
    | (inl e, w') => (Raise e, w', [ev])
    end.

(** [try: m  except Exception as e: h e]. *)
Definition try_except {A} (m : M A) (h : exn → M A) : M A :=
  λ w,
    match m w with
    | (Raise e, w1, t1) =>
        match h e w1 with
        | (r, w2, t2) => (r, w2, t1 ++ t2)
        end
    | other => other
    end.

(** [try: m  except NotFoundError: h]. *)
Definition try_except_NotFoundError {A} (m : M A) (h : M A) : M A :=
  λ w,
    match m w with
    | (Raise NotFoundError, w1, t1) =>
        match h w1 with
        | (r, w2, t2) => (r, w2, t1 ++ t2)
        end
    | other => other
    end.

Notation "x <- m ;; k" := (bind m (λ x, k))
  (at level 100, m at next level, right associativity, only parsing).
Notation "m ;;; k" := (bind m (λ _, k))
  (at level 100, right associativity, only parsing).

(** [client.typedef.create(d)] and [client.typedef.update(d)]. *)
Definition client_typedef_create (d : TypeDef) : M unit :=
  λ w,
    match typedef_create sdk d w with
    | (None, w') => (Ok tt, w', [EvCreate d None])
    | (Some e, w') => (Raise e, w', [EvCreate d (Some e)])
    end.

Definition client_typedef_update (d : TypeDef) : M unit :=
  λ w,
    match typedef_update sdk d w with
    | (None, w') => (Ok tt, w', [EvUpdate d None])
    | (Some e, w') => (Raise e, w', [EvUpdate d (Some e)])
    end.

(** [AtlanClient(base_url=..., api_key=...)]. *)
Definition AtlanClient (base_url api_key : string) : M unit :=
  emit (EvClient base_url api_key) ;;;
  match AtlanClient_check sdk base_url api_key with
  | Some e => raise e
  | None => ret tt
  end.

(** ** [cm_generator.py] *)

Definition _get_all_qualified_names (asset_type : string) : M (gset string) :=
  results <- remote_read (EvSearch asset_type) (asset_search sdk asset_type) ;;
  ret (list_to_set ((λ result, default "" (qualified_name result)) <$> results)).

(** [set() if not app else universe if app[0] == "all" else set(app)], for
    the five categories whose universe is a constant of the module. *)
Definition static_scope (universe : gset string) (app : option (list string))
  : gset string :=
  match app with
  | None => ∅
  | Some [] => ∅
  | Some (first :: rest) =>
      if decide (first = "all") then universe
      else list_to_set (first :: rest)
  end.

(** The same expression for connections and glossaries, whose universe is
    [_get_all_qualified_names(asset_type)]. *)
Definition live_scope (asset_type : string) (app : option (list string))
  : M (gset string) :=
  match app with
  | None => ret ∅
  | Some [] => ret ∅
  | Some (first :: rest) =>
      if decide (first = "all") then _get_all_qualified_names asset_type
      else ret (list_to_set (first :: rest))
  end.

(** [AttributeDef.create(...)]: the SDK checks the arguments and stores
    them. *)
Definition AttributeDef_create (d : AttributeDef) : M AttributeDef :=
  match AttributeDef_check sdk d with
  | Some e => raise e
  | None => ret d
  end.

(** [CustomMetadataDef.create(display_name=...)]. *)
Definition CustomMetadataDef_create (name : string) : M CustomMetadataDef :=
  match CustomMetadataDef_check sdk name with
  | Some e => raise e
  | None =>
      ret {| cm_display_name := name; attribute_defs := []; cm_options := None |}
  end.

(** Lines 330-337: the seven assignments to an existing attribute. *)
Definition overwrite_scopes (existing_def : AttributeDef) (attr : AttrConfig)
  : M AttributeDef :=
  conn <- live_scope "Connection" (cfg_applicable_connections attr) ;;
  gloss <- live_scope "AtlasGlossary" (cfg_applicable_glossaries attr) ;;
  ret {| display_name := display_name existing_def;
         attribute_type := attribute_type existing_def;
         options_name := options_name existing_def;
         multi_valued := multi_valued existing_def;
         applicable_connections := conn;
         applicable_glossaries := gloss;
         applicable_domains :=
           static_scope _all_domains (cfg_applicable_domains attr);
         applicable_asset_types :=
           static_scope _complete_type_list (cfg_applicable_asset_types attr);
         applicable_glossary_types :=
           static_scope _all_glossary_types
             (cfg_applicable_glossary_types attr);
         applicable_domain_types :=
           static_scope _all_domain_types (cfg_applicable_domain_types attr);
         applicable_other_asset_types :=
           static_scope _all_other_types
             (cfg_applicable_other_asset_types attr) |}.

(** Lines 349-363 and 379-393: the attribute built from one config entry. *)
Definition new_attribute (attr_key : string) (attr : AttrConfig)
  : M AttributeDef :=
  conn <- live_scope "Connection" (cfg_applicable_connections attr) ;;
  gloss <- live_scope "AtlasGlossary" (cfg_applicable_glossaries attr) ;;
  AttributeDef_create
    {| display_name := attr_key;
       attribute_type := mapping_get (cfg_type attr);
       options_name := cfg_options attr;
       multi_valued := cfg_multivalue attr;
       applicable_connections := conn;
       applicable_glossaries := gloss;
       applicable_domains :=
         static_scope _all_domains (cfg_applicable_domains attr);
       applicable_asset_types :=
         static_scope _complete_type_list (cfg_applicable_asset_types attr);
       applicable_glossary_types :=
         static_scope _all_glossary_types (cfg_applicable_glossary_types attr);
       applicable_domain_types :=
         static_scope _all_domain_types (cfg_applicable_domain_types attr);
       applicable_other_asset_types :=
         static_scope _all_other_types
           (cfg_applicable_other_asset_types attr) |}.

(** Lines 319-340: the loop over [existing.attribute_defs].  It carries the
    [attributes] object of the item, which the loop mutates by [pop], and the
    list [defs] it appends to; an existing attribute whose name is no key of
    [attributes] is not appended. *)
Fixpoint update_loop (existing_defs : list AttributeDef)
    (attributes : dict AttrConfig) (defs : list AttributeDef)
  : M (dict AttrConfig * list AttributeDef) :=
  match existing_defs with
  | [] => ret (attributes, defs)
  | existing_def :: rest =>
      match dict_get attributes (display_name existing_def) with
      | Some attr =>
          updated <- overwrite_scopes existing_def attr ;;
          update_loop rest
            (dict_pop attributes (display_name existing_def))
            (defs ++ [updated])
      | None => update_loop rest attributes defs
      end
  end.

(** Lines 341-363 and 371-393: the loop over [attributes.items()]. *)
Fixpoint create_loop (items : dict AttrConfig) (defs : list AttributeDef)
  : M (list AttributeDef) :=
  match items with
  | [] => ret defs
  | (attr_key, attr) :: rest =>
      created <- new_attribute attr_key attr ;;
      create_loop rest (defs ++ [created])
  end.

(** The attribute list either branch of [main] assigns to
    [attribute_defs]: the reconciler of the specification. *)
Definition reconcile (existing : option CustomMetadataDef)
    (desired : dict AttrConfig) : M (list AttributeDef) :=
  match existing with
  | Some existing =>
      r <- update_loop (attribute_defs existing) desired [] ;;
      create_loop r.1 r.2
  | None => create_loop desired []
  end.

(** Lines 311-314. *)
Definition lookup_existing (item : Item) : M (option CustomMetadataDef) :=
  try_except_NotFoundError
    (d <- remote_read (EvGetCustomMetadata (item_name item))
            (get_custom_metadata_def sdk (item_name item)) ;;
     ret (Some d))
    (ret None).

(** ["Creating " + item.get("name")]. *)
Definition concat_name (prefix : string) (name : option string) : M string :=
  match name with
  | Some n => ret (prefix +:+ n)
  | None => raise (TypeError "can only concatenate str (not NoneType) to str")
  end.

(** Lines 317-365: the branch taken when [existing] is truthy. *)
Definition update_branch (existing : CustomMetadataDef) (item : Item)
  : M unit :=
  print ("Updating " +:+ cm_display_name existing) ;;;
  defs <- reconcile (Some existing) (item_attributes item) ;;
  client_typedef_update
    (CustomMetadataTypeDef
       {| cm_display_name := cm_display_name existing;
          attribute_defs := defs;
          cm_options := cm_options existing |}).

(** Lines 367-405: the [else] branch. *)
Definition create_branch (item : Item) : M unit :=
  msg <- concat_name "Creating " (item_name item) ;;
  print msg ;;;
  cm_def <- CustomMetadataDef_create (default "" (item_name item)) ;;
  defs <- reconcile None (item_attributes item) ;;
  if item_has_icon item then ret tt
  else if item_has_emoji item then ret tt
  else
    client_typedef_create
      (CustomMetadataTypeDef
         {| cm_display_name := cm_display_name cm_def;
            attribute_defs := defs;
            cm_options :=
              Some {| logo_icon := "BAG_SIMPLE"; logo_color := "YELLOW" |} |}).

(** The body of the [for item in loaded_data] loop, lines 311-405. *)
Definition main_item (item : Item) : M unit :=
  existing <- lookup_existing item ;;
  match existing with
  | Some existing => update_branch existing item
  | None => create_branch item
  end.

Fixpoint main_loop (loaded_data : list Item) : M unit :=
  match loaded_data with
  | [] => ret tt
  | item :: rest => main_item item ;;; main_loop rest
  end.

(** Validation 3 of [load_json_from_file]: a warning, nothing more. *)
Definition warn_extension (file_path : string) : M unit :=
  if endswith (lower file_path) ".json" then ret tt
  else emit (EvStderr ("Warning: Input file '" +:+ file_path +:+
                       "' does not have a .json extension.")).

(** [load_json_from_file(file_path)], shared by [cm_generator.py] and
    [options_generator.py]. *)
Definition load_json_from_file {A} (file_path : string) (file : JsonFile A)
  : M (list A) :=
  match file with
  | NoSuchPath =>
      emit (EvStderr ("Error: Input file not found at '" +:+ file_path +:+ "'")) ;;;
      sys_exit 1
  | IsDirectory =>
      emit (EvStderr ("Error: Input path '" +:+ file_path +:+
                      "' is a directory, not a file.")) ;;;
      sys_exit 1
  | InvalidJson details =>
      warn_extension file_path ;;;
      emit (EvOpenFile file_path) ;;;
      emit (EvStderr ("Error: Failed to decode JSON from '" +:+ file_path +:+
                      "'. Invalid JSON format.")) ;;;
      emit (EvStderr ("Details: " +:+ details)) ;;;
      sys_exit 1
  | Unreadable details =>
      warn_extension file_path ;;;
      emit (EvOpenFile file_path) ;;;
      emit (EvStderr ("Error: Could not read file '" +:+ file_path +:+
                      "'. Check permissions.")) ;;;
      emit (EvStderr ("Details: " +:+ details)) ;;;
      sys_exit 1
  | JsonData data =>
      warn_extension file_path ;;;
      emit (EvOpenFile file_path) ;;;
      print ("Successfully loaded JSON data from '" +:+ file_path +:+ "'.") ;;;
      ret data
  end.

(** The prints between the load and the client, lines 281-289. *)
Definition data_usage_example {A} (loaded_data : list A) : M unit :=
  print (newline +:+ "--- Data Usage Example ---") ;;;
  print "The loaded data is of type: <class 'list'>" ;;;
  print ("Number of items in the list: " +:+ pretty (length loaded_data)).

(** [main()] of [cm_generator.py]; [input_json_file] is the parsed
    command-line argument and [file] what the file system holds there. *)
Definition main (input_json_file : string) (file : JsonFile Item) : M unit :=
  loaded_data <- load_json_from_file input_json_file file ;;
  data_usage_example loaded_data ;;;
  AtlanClient "" "" ;;;
  main_loop loaded_data ;;;
  print (newline +:+ "Script finished successfully.").

(** The script as the interpreter runs it under an environment: the module
    body defines functions and calls [main()]; nothing reads [os.environ]. *)
Definition cm_generator (env : gmap string string) (input_json_file : string)
    (file : JsonFile Item) : M unit :=
  main input_json_file file.

(** ** [options_generator.py] *)

(** [num_def.name]. *)
Definition typedef_name (d : TypeDef) : option string :=
  match d with
  | TagTypeDef t => Some (tag_def_name t)
  | CustomMetadataTypeDef c => Some (cm_display_name c)
  | EnumTypeDef e => enum_name e
  end.

(** [EnumDef.create(...)] and [EnumDef.update(...)]: checked, then stored. *)
Definition EnumDef_build (d : EnumDef) : M EnumDef :=
  match EnumDef_check sdk d with
  | Some e => raise e
  | None => ret d
  end.

(** Lines 111-114. *)
Definition lookup_enum (item : EnumItem) : M (option TypeDef) :=
  try_except_NotFoundError
    (d <- remote_read (EvGetByName (enum_item_name item))
            (typedef_get_by_name sdk (enum_item_name item)) ;;
     ret (Some d))
    (ret None).

(** Lines 117-124: the branch taken when [num_def] is truthy. *)
Definition options_update_branch (num_def : TypeDef) (item : EnumItem)
  : M unit :=
  msg <- concat_name "Updating " (typedef_name num_def) ;;
  print msg ;;;
  enum_def <- EnumDef_build
    {| enum_name := enum_item_name item;
       enum_values := enum_item_values item;
       enum_replace_existing := Some true |} ;;
  client_typedef_update (EnumTypeDef enum_def).

(** Lines 126-132: the [else] branch. *)
Definition options_create_branch (item : EnumItem) : M unit :=
  msg <- concat_name "Creating " (enum_item_name item) ;;
  print msg ;;;
  enum_def <- EnumDef_build
    {| enum_name := enum_item_name item;
       enum_values := enum_item_values item;
       enum_replace_existing := None |} ;;
  client_typedef_create (EnumTypeDef enum_def).

(** The body of the loop, lines 110-132. *)
Definition options_item (item : EnumItem) : M unit :=
  num_def <- lookup_enum item ;;
  match num_def with
  | Some num_def => options_update_branch num_def item
  | None => options_create_branch item
  end.

Fixpoint options_loop (loaded_data : list EnumItem) : M unit :=
  match loaded_data with
  | [] => ret tt
  | item :: rest => options_item item ;;; options_loop rest
  end.

Definition options_main (input_json_file : string) (file : JsonFile EnumItem)
  : M unit :=
  loaded_data <- load_json_from_file input_json_file file ;;
  data_usage_example loaded_data ;;;
  AtlanClient "" "" ;;;
  options_loop loaded_data ;;;
  print (newline +:+ "Script finished successfully.").

Definition options_generator (env : gmap string string)
    (input_json_file : string) (file : JsonFile EnumItem) : M unit :=
  options_main input_json_file file.

(** ** [createTags.py] *)

(** [tag_config[key]]. *)
Definition getitem (tag_config : gmap string string) (key : string) : M string :=
  match tag_config !! key with
  | Some v => ret v
  | None => raise (KeyError key)
  end.

(** [AtlanTagColor[name]]: lookup of an enumeration member by name. *)
Definition AtlanTagColor_getitem (name : string) : M string :=
  if AtlanTagColor_member sdk name then ret name else raise (KeyError name).

(** [AtlanIcon(value)]: lookup of an enumeration member by value. *)
Definition AtlanIcon_call (value : string) : M string :=
  if AtlanIcon_member sdk value then ret value
  else raise (ValueError ("'" +:+ value +:+ "' is not a valid AtlanIcon")).

(** [AtlanTagDef.create(...)]. *)
Definition AtlanTagDef_create (d : AtlanTagDef) : M AtlanTagDef :=
  match AtlanTagDef_check sdk d with
  | Some e => raise e
  | None => ret d
  end.

(** Lines 100-116: the [if]/[elif] chain that binds [tag_def]; [None] is the
    local left unbound when no branch is taken. *)
Definition bind_tag_def (tag_type tag_name : string)
    (tag_config : gmap string string) : M (option AtlanTagDef) :=
  if decide (tag_type = "color") then
    c <- getitem tag_config "color" ;;
    color <- AtlanTagColor_getitem c ;;
    tag_def <- AtlanTagDef_create
      {| tag_def_name := tag_name; tag_def_color := Some color;
         tag_def_emoji := None; tag_def_icon := None;
         tag_def_description := None |} ;;
    ret (Some tag_def)
  else if decide (tag_type = "emoji") then
    c <- getitem tag_config "color" ;;
    color <- AtlanTagColor_getitem c ;;
    emoji <- getitem tag_config "emoji" ;;
    tag_def <- AtlanTagDef_create
      {| tag_def_name := tag_name; tag_def_color := Some color;
         tag_def_emoji := Some emoji; tag_def_icon := None;
         tag_def_description := None |} ;;
    ret (Some tag_def)
  else if decide (tag_type = "icon") then
    i <- getitem tag_config "icon_name" ;;
    icon <- AtlanIcon_call i ;;
    tag_def <- AtlanTagDef_create
      {| tag_def_name := tag_name; tag_def_color := None;
         tag_def_emoji := None; tag_def_icon := Some icon;
         tag_def_description := None |} ;;
    description <- getitem tag_config "description" ;;
    ret (Some {| tag_def_name := tag_def_name tag_def;
                 tag_def_color := tag_def_color tag_def;
                 tag_def_emoji := tag_def_emoji tag_def;
                 tag_def_icon := tag_def_icon tag_def;
                 tag_def_description := Some description |})
  else ret None.

(** Lines 99-120: the body of the [try]. *)
Definition create_tag_body (tag_type tag_name : string)
    (tag_config : gmap string string) : M (option string) :=
  bound <- bind_tag_def tag_type tag_name tag_config ;;
  tag_def <- match bound with
             | Some d => ret d
             | None => raise (UnboundLocalError "tag_def")
             end ;;
  client_typedef_create (TagTypeDef tag_def) ;;;
  print ("Created " +:+ tag_type +:+ " tag '" +:+ tag_name +:+ "'") ;;;
  ret (Some tag_name).

Definition create_tag_from_config (tag_config : gmap string string)
  : M (option string) :=
  tag_type <- getitem tag_config "type" ;;
  tag_name <- getitem tag_config "name" ;;
  try_except (create_tag_body tag_type tag_name tag_config)
    (λ e,
       print ("Error creating tag '" +:+ tag_name +:+ "': " +:+ exn_str e) ;;;
       ret None).

Definition load_tag_config (yaml_file : string) (file : YamlFile)
  : M (list (gmap string string)) :=
  emit (EvOpenFile yaml_file) ;;;
  match file with
  | YamlMissing => raise (OSError "No such file or directory")
  | YamlWithoutTags => raise (ValueError "YAML file must contain a 'tags' list")
  | YamlTags tags => ret tags
  end.

(** Lines 137-141: the loop that collects [created_tags]. *)
Fixpoint create_tags_loop (tag_configs : list (gmap string string))
    (created_tags : list string) : M (list string) :=
  match tag_configs with
  | [] => ret created_tags
  | config :: rest =>
      tag_name <- create_tag_from_config config ;;
      create_tags_loop rest
        (if truthy tag_name then created_tags ++ [default "" tag_name]
         else created_tags)
  end.

Fixpoint print_tags (created_tags : list string) : M unit :=
  match created_tags with
  | [] => ret tt
  | tag :: rest => print ("- " +:+ tag) ;;; print_tags rest
  end.

Definition createTags_main (ATLAN_API_KEY ATLAN_TENANT : string)
    (file : YamlFile) : M unit :=
  AtlanClient ATLAN_TENANT ATLAN_API_KEY ;;;
  try_except
    (tag_configs <- load_tag_config "tag_template.yaml" file ;;
     created_tags <- create_tags_loop tag_configs [] ;;
     print (newline +:+ "Successfully created " +:+
            pretty (length created_tags) +:+ " tags:") ;;;
     print_tags created_tags)
    (λ e, print ("An error occurred: " +:+ exn_str e)).

(** The module body, lines 56-60, followed by [main()]. *)
Definition createTags (env : gmap string string) (file : YamlFile) : M unit :=
  let ATLAN_API_KEY := env !! "ATLAN_API_KEY" in
  let ATLAN_TENANT := env !! "ATLAN_TENANT" in
  if negb (truthy ATLAN_API_KEY) || negb (truthy ATLAN_TENANT) then
    raise (ValueError
             "Please set ATLAN_API_KEY and ATLAN_TENANT environment variables")
  else
    createTags_main (default "" ATLAN_API_KEY) (default "" ATLAN_TENANT) file.

End Script.

Arguments M : clear implicits.

(** ** A small catalog on which the scripts run

    An instance of the SDK that keeps the type definitions in a list, answers
    searches from a table of assets and refuses writes when the catalog is
    read-only. *)

Module Demo.

Record Catalog := {
  typedefs : list TypeDef;
  writable : bool
}.

(** The assets of the tenant, by type name and qualified name; no script
    creates or removes assets. *)
Definition assets : list (string * option string) :=
  [("Connection", Some "default/snowflake/1"); ("Connection", None);
   ("AtlasGlossary", Some "glossary-1")].

Definition hits (asset_type : string) : list SearchResult :=
  (λ a, {| qualified_name := a.2 |}) <$>
    filter (λ a, a.1 = asset_type) assets.

Definition search (asset_type : string) (c : Catalog)
  : (exn + list SearchResult) * Catalog :=
  (inr (hits asset_type), c).

Definition named (name : string) (d : TypeDef) : bool :=
  bool_decide (typedef_name d = Some name).

Definition get_cm (name : option string) (c : Catalog)
  : (exn + CustomMetadataDef) * Catalog :=
  match name with
  | None => (inl (SdkError "custom metadata name is required"), c)
  | Some n =>
      match List.find (named n) (typedefs c) with
      | Some (CustomMetadataTypeDef d) => (inr d, c)
      | _ => (inl NotFoundError, c)
      end
  end.

Definition get_by_name (name : option string) (c : Catalog)
  : (exn + TypeDef) * Catalog :=
  match name with
  | None => (inl (SdkError "name is required"), c)
  | Some n =>
      match List.find (named n) (typedefs c) with
      | Some d => (inr d, c)
      | None => (inl NotFoundError, c)
      end
  end.

Definition create (d : TypeDef) (c : Catalog) : option exn * Catalog :=
  if negb (writable c) then (Some (SdkError "403 Forbidden"), c)
  else if existsb (λ d', bool_decide (typedef_name d' = typedef_name d))
            (typedefs c)
  then (Some (SdkError "409 Conflict: already exists"), c)
  else (None, {| typedefs := typedefs c ++ [d]; writable := writable c |}).

Definition update (d : TypeDef) (c : Catalog) : option exn * Catalog :=
  if negb (writable c) then (Some (SdkError "403 Forbidden"), c)
  else
    (None,
     {| typedefs :=
          (λ d', if bool_decide (typedef_name d' = typedef_name d) then d
                 else d') <$> typedefs c;
        writable := writable c |}).

Definition sdk : Sdk Catalog := {|
  AtlanClient_check := λ _ _, None;
  asset_search := search;
  get_custom_metadata_def := get_cm;
  typedef_get_by_name := get_by_name;
  typedef_create := create;
  typedef_update := update;
  AttributeDef_check := λ d,
    match attribute_type d with
    | None => Some (ValueError "attribute_type is required")
    | Some _ => None
    end;
  CustomMetadataDef_check := λ _, None;
  AtlanTagColor_member := λ c,
    bool_decide (c ∈ ["GREEN"; "YELLOW"; "RED"; "GRAY"]);
  AtlanIcon_member := λ i, bool_decide (i ∈ ["PhEcho"; "PhBagSimple"]);
  AtlanTagDef_check := λ _, None;
  EnumDef_check := λ _, None
|}.

(** An attribute entry that sets only a type and the asset types. *)
Definition attr (type : string) (asset_types : option (list string))
  : AttrConfig :=
  {| cfg_type := Some type; cfg_options := None; cfg_multivalue := None;
     cfg_applicable_connections := None;
     cfg_applicable_asset_types := asset_types;
     cfg_applicable_glossaries := None;
     cfg_applicable_glossary_types := None;
     cfg_applicable_other_asset_types := None;
     cfg_applicable_domains := None;
     cfg_applicable_domain_types := None |}.

(** An attribute as the catalog stores it, scoped to some asset types. *)
Definition stored (name : string) (asset_types : list string) : AttributeDef :=
  {| display_name := name; attribute_type := Some STRING;
     options_name := None; multi_valued := None;
     applicable_connections := ∅; applicable_glossaries := ∅;
     applicable_domains := ∅;
     applicable_asset_types := list_to_set asset_types;
     applicable_glossary_types := ∅; applicable_domain_types := ∅;
     applicable_other_asset_types := ∅ |}.

(** A definition [Ownership] with attributes [A] and [B]. *)
Definition ownership : CustomMetadataDef :=
  {| cm_display_name := "Ownership";
     attribute_defs := [stored "A" ["Table"]; stored "B" ["View"]];
     cm_options := None |}.

Definition catalog : Catalog :=
  {| typedefs := [CustomMetadataTypeDef ownership]; writable := true |}.

Definition read_only : Catalog :=
  {| typedefs := typedefs catalog; writable := false |}.

(** A catalog whose [Ownership] holds two attributes named [B]. *)
Definition duplicated : Catalog :=
  {| typedefs :=
       [CustomMetadataTypeDef
          {| cm_display_name := "Ownership";
             attribute_defs :=
               [stored "B" ["View"]; stored "A" ["Table"]; stored "B" []];
             cm_options := None |}];
     writable := true |}.

(** The config of the example in the specification: [B] rescoped, [C] new. *)
Definition desired : dict AttrConfig :=
  [("B", attr "Text" (Some ["Column"])); ("C", attr "Int" (Some ["all"]))].

Definition item : Item :=
  {| item_name := Some "Ownership"; item_attributes := desired;
     item_has_icon := false; item_has_emoji := false |}.

(** What reconciling [ownership] with [desired] gives: [B] rescoped to
    columns, [C] created for every asset type, and no [A]. *)
Definition created_C : AttributeDef :=
  {| display_name := "C"; attribute_type := Some INTEGER;
     options_name := None; multi_valued := None;
     applicable_connections := ∅; applicable_glossaries := ∅;
     applicable_domains := ∅;
     applicable_asset_types := _complete_type_list;
     applicable_glossary_types := ∅; applicable_domain_types := ∅;
     applicable_other_asset_types := ∅ |}.

Definition reconciled : list AttributeDef :=
  [stored "B" ["Column"]; created_C].

Definition ownership_reconciled : CustomMetadataDef :=
  {| cm_display_name := "Ownership"; attribute_defs := reconciled;
     cm_options := None |}.

Definition updated_catalog : Catalog :=
  {| typedefs := [CustomMetadataTypeDef ownership_reconciled];
     writable := true |}.

(** The item of [Ownership] with an [icon] key. *)
Definition icon_item : Item :=
  {| item_name := Some "Ownership"; item_attributes := desired;
     item_has_icon := true; item_has_emoji := false |}.

(** An item the catalog does not hold, with an [emoji] key. *)
Definition stub_item : Item :=
  {| item_name := Some "Quality"; item_attributes := desired;
     item_has_icon := false; item_has_emoji := true |}.

(** An item without a name. *)
Definition nameless : Item :=
  {| item_name := None; item_attributes := desired;
     item_has_icon := false; item_has_emoji := false |}.

(** [Ownership] again, with a type string [mapping] does not know. *)
Definition mistyped : Item :=
  {| item_name := Some "Ownership";
     item_attributes := [("B", attr "unknown" (Some ["Column"]))];
     item_has_icon := false; item_has_emoji := false |}.

Definition mistyped_reconciled : CustomMetadataDef :=
  {| cm_display_name := "Ownership";
     attribute_defs := [stored "B" ["Column"]];
     cm_options := None |}.

(** Tag entries: a colour tag, one whose name is taken, one of a type the
    script does not know, and one with a type but no name. *)
Definition critical : gmap string string :=
  list_to_map [("type", "color"); ("name", "Critical"); ("color", "RED")].

Definition taken : gmap string string :=
  list_to_map [("type", "color"); ("name", "Ownership"); ("color", "GREEN")].

Definition banner : gmap string string :=
  list_to_map [("type", "banner"); ("name", "Banner")].

Definition anonymous : gmap string string :=
  list_to_map [("type", "banner")].

Definition critical_def : AtlanTagDef :=
  {| tag_def_name := "Critical"; tag_def_color := Some "RED";
     tag_def_emoji := None; tag_def_icon := None;
     tag_def_description := None |}.

End Demo.

(** ** The reconciliation rule, stated over the two lists *)

Definition names (defs : list AttributeDef) : list string :=
  display_name <$> defs.

(** The existing attributes the update loop keeps, each with the config
    entry it is rescoped from: an attribute is kept when its name is still a
    key of the config, which then loses that key. *)
Fixpoint matched (existing_defs : list AttributeDef)
    (attributes : dict AttrConfig) : list (AttributeDef * AttrConfig) :=
  match existing_defs with
  | [] => []
  | existing_def :: rest =>
      match dict_get attributes (display_name existing_def) with
      | Some attr =>
          (existing_def, attr)
          :: matched rest (dict_pop attributes (display_name existing_def))
      | None => matched rest attributes
      end
  end.

(** The names of the attributes the update loop keeps. *)
Definition matched_names (E : list AttributeDef) (D : dict AttrConfig)
  : list string :=
  (λ p, display_name p.1) <$> matched E D.

(** The config entries left for the create loop. *)
Definition unmatched (existing_defs : list AttributeDef)
    (attributes : dict AttrConfig) : dict AttrConfig :=
  filter (λ kv, kv.1 ∉ names existing_defs) attributes.

(** The five scopes whose universe is a constant. *)
Definition static_scopes_from (attr : AttrConfig) (d : AttributeDef) : Prop :=
  applicable_domains d = static_scope _all_domains (cfg_applicable_domains attr)
  ∧ applicable_asset_types d =
      static_scope _complete_type_list (cfg_applicable_asset_types attr)
  ∧ applicable_glossary_types d =
      static_scope _all_glossary_types (cfg_applicable_glossary_types attr)
  ∧ applicable_domain_types d =
      static_scope _all_domain_types (cfg_applicable_domain_types attr)
  ∧ applicable_other_asset_types d =
      static_scope _all_other_types (cfg_applicable_other_asset_types attr).

(** [d] is the existing attribute [p.1] with its scopes taken from [p.2]. *)
Definition updated_from (p : AttributeDef * AttrConfig) (d : AttributeDef)
  : Prop :=
  display_name d = display_name p.1
  ∧ attribute_type d = attribute_type p.1
  ∧ options_name d = options_name p.1
  ∧ multi_valued d = multi_valued p.1
  ∧ static_scopes_from p.2 d.

(** [d] is the attribute built from the config entry [kv]. *)
Definition created_from (kv : string * AttrConfig) (d : AttributeDef) : Prop :=
  display_name d = kv.1
  ∧ attribute_type d = mapping_get (cfg_type kv.2)
  ∧ options_name d = cfg_options kv.2
  ∧ multi_valued d = cfg_multivalue kv.2
  ∧ static_scopes_from kv.2 d.

(** The scope rule in words: the universe when the list starts with
    ["all"], else the identifiers listed (none when the input is absent). *)
Definition starts_with_all (app : option (list string)) : bool :=
  bool_decide (head (default [] app) = Some "all").

Definition scope_rule (universe : gset string) (app : option (list string))
  : gset string :=
  if starts_with_all app then universe else list_to_set (default [] app).

(** The names [mapping] knows. *)
Definition primitive_type_names : list string :=
  ["Text"; "URL"; "Enum"; "Users"; "Groups"; "Boolean"; "Int"; "SQL"; "Date";
   "Decimal"].

(** ** Properties of runs *)

(** Every event a computation emits, in any world and whatever its result,
    satisfies [P]. *)
Definition emits {World A} (P : event → Prop) (m : M World A) : Prop :=
  ∀ w r w' t, m w = (r, w', t) → Forall P t.

(** The event is no remote write. *)
Definition no_write (ev : event) : Prop := is_write ev = false.

(** The event is no work: it is a line on the terminal. *)
Definition no_work (ev : event) : Prop := is_work ev = false.

Definition failed {A} (r : Res A) : Prop :=
  match r with
  | Ok _ => False
  | _ => True
  end.

(** [r] fails the way [r0] does. *)
Definition same_failure {A B} (r0 : Res A) (r : Res B) : Prop :=
  match r0, r with
  | Raise e0, Raise e => e0 = e
  | Exit c0, Exit c => c0 = c
  | _, _ => False
  end.

(** ** A catalog that answers every search alike *)

(** [set(names)] of [_get_all_qualified_names], over given search hits. *)
Definition qualified_names_of (results : list SearchResult) : gset string :=
  list_to_set ((λ result, default "" (qualified_name result)) <$> results).

(** Searches read the catalog without changing it and answer with
    [snapshot], whatever the world. *)
Definition stable_search {World} (sdk : Sdk World)
    (snapshot : string → list SearchResult) : Prop :=
  ∀ asset_type w, asset_search sdk asset_type w = (inr (snapshot asset_type), w).

(** The two scopes whose universe is looked up. *)
Definition live_scopes_from (snapshot : string → list SearchResult)
    (attr : AttrConfig) (d : AttributeDef) : Prop :=
  applicable_connections d =
    static_scope (qualified_names_of (snapshot "Connection"))
      (cfg_applicable_connections attr)
  ∧ applicable_glossaries d =
      static_scope (qualified_names_of (snapshot "AtlasGlossary"))
        (cfg_applicable_glossaries attr).

(** [d] carries the scopes the config [D] gives to its name. *)
Definition scoped_by (snapshot : string → list SearchResult)
    (D : dict AttrConfig) (d : AttributeDef) : Prop :=
  ∃ attr,
    dict_get D (display_name d) = Some attr
    ∧ static_scopes_from attr d ∧ live_scopes_from snapshot attr d.

(** ** The claims of the specification that the code does not meet, as
    stated *)

(** Implicit retain: an existing attribute the config does not name is in
    the reconciled list. *)
Definition retains_unmentioned {World} (sdk : Sdk World)
    (existing : CustomMetadataDef) (desired : dict AttrConfig) (w : World)
  : Prop :=
  ∀ L w' t,
    reconcile sdk (Some existing) desired w = (Ok L, w', t) →
    ∀ e, e ∈ attribute_defs existing → display_name e ∉ keys desired → e ∈ L.

(** The scope rule with the universe reserved to the one-element list
    [["all"]]. *)
Definition scope_rule_as_stated (universe : gset string)
    (app : option (list string)) : gset string :=
  match app with
  | None => ∅
  | Some [] => ∅
  | Some [only] => if decide (only = "all") then universe else {[ only ]}
  | Some ids => list_to_set ids
  end.

(** The run [x] after the events [t0]. *)
Definition after {World A} (t0 : list event) (x : Res A * World * list event)
  : Res A * World * list event :=
  (x.1.1, x.1.2, t0 ++ x.2).

(** Any outcome of the existence check other than "not found" routes the
    item to the update branch. *)
Definition routing_as_stated {World} (sdk : Sdk World) (item : Item) (w : World)
  : Prop :=
  ∀ e w1,
    get_custom_metadata_def sdk (item_name item) w = (inl e, w1) →
    e ≠ NotFoundError →
    ∃ existing,
      main_item sdk item w
      = after [EvGetCustomMetadata (item_name item)]
          (update_branch sdk existing item w1).

(** An item with an [icon] or [emoji] key causes no create or update call. *)
Definition skips_stub_as_stated {World} (sdk : Sdk World) (item : Item)
    (w : World) : Prop :=
  item_has_icon item = true ∨ item_has_emoji item = true →
  ∀ r w' t, main_item sdk item w = (r, w', t) → Forall no_write t.

(** An item without a name, or with an attribute whose type string is not
    in the enumeration. *)
Definition malformed (item : Item) : Prop :=
  item_name item = None
  ∨ ∃ k attr ty,
      (k, attr) ∈ item_attributes item
      ∧ cfg_type attr = Some ty ∧ ty ∉ primitive_type_names.

(** A malformed item fails, and no create or update call is made for it. *)
Definition fails_fast_as_stated {World} (sdk : Sdk World) (item : Item)
    (w : World) : Prop :=
  malformed item →
  ∀ r w' t, main_item sdk item w = (r, w', t) → failed r ∧ Forall no_write t.

(** The config entry with another type string. *)
Definition with_type (ty : option string) (attr : AttrConfig) : AttrConfig :=
  {| cfg_type := ty;
     cfg_options := cfg_options attr;
     cfg_multivalue := cfg_multivalue attr;
     cfg_applicable_connections := cfg_applicable_connections attr;
     cfg_applicable_asset_types := cfg_applicable_asset_types attr;
     cfg_applicable_glossaries := cfg_applicable_glossaries attr;
     cfg_applicable_glossary_types := cfg_applicable_glossary_types attr;
     cfg_applicable_other_asset_types := cfg_applicable_other_asset_types attr;
     cfg_applicable_domains := cfg_applicable_domains attr;
     cfg_applicable_domain_types := cfg_applicable_domain_types attr |}.

(** The item with other [icon] and [emoji] keys. *)
Definition with_stub_keys (icon emoji : bool) (item : Item) : Item :=
  {| item_name := item_name item;
     item_attributes := item_attributes item;
     item_has_icon := icon;
     item_has_emoji := emoji |}.

(** After a remote error on one item the loop of [cm_generator.py] still
    reaches every item. *)
Definition continues_after_error_as_stated {World} (sdk : Sdk World)
    (items : list Item) (w : World) : Prop :=
  ∀ r w' t,
    main_loop sdk items w = (r, w', t) →
    ∀ item, item ∈ items → EvGetCustomMetadata (item_name item) ∈ t.

(** The event is no create call that the catalog accepted. *)
Definition no_created (ev : event) : Prop := ∀ d, ev ≠ EvCreate d None.

(** A tag entry with the two keys read before the [try]. *)
Definition has_type_and_name (tag_config : gmap string string) : Prop :=
  is_Some (tag_config !! "type") ∧ is_Some (tag_config !! "name").

(** The tag types [create_tag_from_config] knows. *)
Definition tag_types : list string := ["color"; "emoji"; "icon"].

(** The line printed by the handler of [create_tag_from_config]. *)
Definition error_line (tag_name : string) (e : exn) : event :=
  EvPrint ("Error creating tag '" +:+ tag_name +:+ "': " +:+ exn_str e).

(** An entry whose type is none of the three returns [None] through the
    handler. *)
Definition unknown_type_handled_as_stated {World} (sdk : Sdk World)
    (tag_config : gmap string string) (w : World) : Prop :=
  (∃ ty, tag_config !! "type" = Some ty ∧ ty ∉ tag_types) →
  ∃ w' t, create_tag_from_config sdk tag_config w = (Ok None, w', t).

(** Both variables are set to non-empty values. *)
Definition credentials_set (env : gmap string string) : bool :=
  truthy (env !! "ATLAN_API_KEY") && truthy (env !! "ATLAN_TENANT").

(** A script that aborts, without any work done, unless both variables are
    set. *)
Definition aborts_without_credentials_as_stated {World A}
    (script : gmap string string → M World A) : Prop :=
  ∀ env w r w' t,
    credentials_set env = false →
    script env w = (r, w', t) → failed r ∧ Forall no_work t.

(** The message of the module-level check of [createTags.py]. *)
Definition credentials_message : string :=
  "Please set ATLAN_API_KEY and ATLAN_TENANT environment variables".

(** The line that opens the summary of [main]. *)
Definition summary_line (created_tags : list string) : event :=
  EvPrint (newline +:+ "Successfully created " +:+
           pretty (length created_tags) +:+ " tags:").

(** The event is not the construction of a client. *)
Definition no_client (ev : event) : Prop := ∀ base_url api_key, ev ≠ EvClient base_url api_key.

(** ** Shapes of traces *)

Definition is_search (ev : event) : Prop := ∃ asset_type, ev = EvSearch asset_type.

Definition is_print (ev : event) : Prop := ∃ msg, ev = EvPrint msg.

(** The searches one config entry asks for: one per live scope whose list
    starts with ["all"]. *)
Definition searches_of (attr : AttrConfig) : list event :=
  (if starts_with_all (cfg_applicable_connections attr)
   then [EvSearch "Connection"] else [])
  ++ (if starts_with_all (cfg_applicable_glossaries attr)
      then [EvSearch "AtlasGlossary"] else []).

(** The trace of one item of a JSON script: the existence check, then
    prints and searches, then at most one remote write. *)
Definition item_trace (check : event) (t : list event) : Prop :=
  ∃ middle write,
    t = check :: middle ++ write
    ∧ Forall (λ ev, is_print ev ∨ is_search ev) middle
    ∧ (write = [] ∨ ∃ ev, write = [ev] ∧ is_write ev = true).

(** The names the existence checks of [cm_generator.py] were made for. *)
Definition lookups (t : list event) : list (option string) :=
  omap (λ ev, match ev with
              | EvGetCustomMetadata name => Some name
              | _ => None
              end) t.

(** The remote writes of a trace. *)
Definition writes (t : list event) : list event :=
  filter (λ ev, is_write ev = true) t.

(** The events [createTags.py] can cause. *)
Definition tag_script_event (ev : event) : Prop :=
  is_print ev
  ∨ (∃ base_url api_key, ev = EvClient base_url api_key)
  ∨ (∃ path, ev = EvOpenFile path)
  ∨ ∃ d o, ev = EvCreate (TagTypeDef d) o.

(** The logo [main] gives to a definition it creates. *)
Definition default_logo : LogoOptions :=
  {| logo_icon := "BAG_SIMPLE"; logo_color := "YELLOW" |}.

(** The line printed by the outer handler of [main] in [createTags.py]. *)
Definition abort_line (e : exn) : event :=
  EvPrint ("An error occurred: " +:+ exn_str e).

(** Prints and searches. *)
Definition quiet (ev : event) : Prop := is_print ev ∨ is_search ev.

(** A trace of quiet events closed by at most one write that satisfies
    [W]. *)
Definition closed_by (W : event → Prop) (t : list event) : Prop :=
  ∃ middle write,
    t = middle ++ write
    ∧ Forall quiet middle
    ∧ (write = [] ∨ ∃ ev, write = [ev] ∧ is_write ev = true ∧ W ev).

(** [d] is the definition [create_tag_from_config] builds from the entry:
    the name, and per type the colour, the emoji, or the icon with the
    description. *)
Definition tag_def_from (tag_config : gmap string string) (d : AtlanTagDef)
  : Prop :=
  tag_config !! "name" = Some (tag_def_name d)
  ∧ ((tag_config !! "type" = Some "color"
      ∧ tag_def_color d = tag_config !! "color"
      ∧ tag_def_emoji d = None ∧ tag_def_icon d = None
      ∧ tag_def_description d = None)
     ∨ (tag_config !! "type" = Some "emoji"
        ∧ tag_def_color d = tag_config !! "color"
        ∧ tag_def_emoji d = tag_config !! "emoji"
        ∧ tag_def_icon d = None ∧ tag_def_description d = None)
     ∨ (tag_config !! "type" = Some "icon"
        ∧ tag_def_icon d = tag_config !! "icon_name"
        ∧ tag_def_description d = tag_config !! "description"
        ∧ tag_def_color d = None ∧ tag_def_emoji d = None)).

(** The file is anything but a JSON list that parsed. *)
Definition unloadable {A} (file : JsonFile A) : Prop :=
  ∀ data, file ≠ JsonData data.

(** ** Further inputs for the small catalog *)

Module Sample.

(** An item the catalog does not hold. *)
Definition quality : Item :=
  {| item_name := Some "Quality"; item_attributes := Demo.desired;
     item_has_icon := false; item_has_emoji := false |}.

Definition quality_def : CustomMetadataDef :=
  {| cm_display_name := "Quality"; attribute_defs := Demo.reconciled;
     cm_options := Some default_logo |}.

(** The catalog after [Ownership] was updated and [Quality] created. *)
Definition both : Demo.Catalog :=
  {| Demo.typedefs :=
       [CustomMetadataTypeDef Demo.ownership_reconciled;
        CustomMetadataTypeDef quality_def];
     Demo.writable := true |}.

(** A config entry scoped to the given connections and glossaries. *)
Definition live (connections glossaries : option (list string)) : AttrConfig :=
  {| cfg_type := Some "Text"; cfg_options := None; cfg_multivalue := None;
     cfg_applicable_connections := connections;
     cfg_applicable_asset_types := None;
     cfg_applicable_glossaries := glossaries;
     cfg_applicable_glossary_types := None;
     cfg_applicable_other_asset_types := None;
     cfg_applicable_domains := None;
     cfg_applicable_domain_types := None |}.

(** [B] for every connection and glossary, [D] for every connection. *)
Definition live_desired : dict AttrConfig :=
  [("B", live (Some ["all"]) (Some ["all"; "glossary-1"]));
   ("D", live (Some ["all"]) (Some ["glossary-1"]))].

Definition live_attribute (name : string) (glossaries : gset string)
  : AttributeDef :=
  {| display_name := name; attribute_type := Some STRING;
     options_name := None; multi_valued := None;
     applicable_connections := qualified_names_of (Demo.hits "Connection");
     applicable_glossaries := glossaries;
     applicable_domains := ∅; applicable_asset_types := ∅;
     applicable_glossary_types := ∅; applicable_domain_types := ∅;
     applicable_other_asset_types := ∅ |}.

Definition live_reconciled : list AttributeDef :=
  [live_attribute "B" (qualified_names_of (Demo.hits "AtlasGlossary"));
   live_attribute "D" (list_to_set ["glossary-1"])].

(** An enumeration the catalog does not hold. *)
Definition status : EnumItem :=
  {| enum_item_name := Some "Status";
     enum_item_values := Some ["Open"; "Closed"] |}.

Definition status_def : EnumDef :=
  {| enum_name := Some "Status"; enum_values := Some ["Open"; "Closed"];
     enum_replace_existing := None |}.

(** An icon tag without a description, and a colour tag with the empty
    name. *)
Definition database : gmap string string :=
  list_to_map [("type", "icon"); ("name", "Database"); ("icon_name", "PhEcho")].

Definition unnamed : gmap string string :=
  list_to_map [("type", "color"); ("name", ""); ("color", "RED")].

Definition unnamed_def : AtlanTagDef :=
  {| tag_def_name := ""; tag_def_color := Some "RED";
     tag_def_emoji := None; tag_def_icon := None;
     tag_def_description := None |}.

End Sample.

(** * Facts *)

(** ** Dictionaries *)

Section Dict.
Context {V : Type}.
Implicit Types (d : dict V) (k : string).

Lemma dict_get_Some d k v : dict_get d k = Some v → (k, v) ∈ d.
Proof.
  induction d as [|[k' v'] d IH]; simpl; [done|].
  case_decide as Hk.
  - intros [= ->]. subst. left.
  - intros H. right. auto.
Qed.

Lemma dict_get_None d k : dict_get d k = None ↔ k ∉ keys d.
Proof.
  unfold keys. induction d as [|[k' v'] d IH]; cbn [dict_get].
  - split; [intros _; apply not_elem_of_nil | done].
  - rewrite fmap_cons, not_elem_of_cons. cbn [fst].
    case_decide as Hk; subst.
    + split; [done | intros [? _]; done].
    + rewrite IH. split; [intros ?; split; [congruence|done] | by intros [_ ?]].
Qed.

Lemma dict_get_is_Some d k : is_Some (dict_get d k) ↔ k ∈ keys d.
Proof.
  rewrite <-not_eq_None_Some, dict_get_None.
  split; [apply dec_stable | auto].
Qed.

Lemma keys_filter (P : string → Prop) `{!∀ k, Decision (P k)} d :
  keys (filter (λ kv, P kv.1) d) = filter P (keys d).
Proof.
  unfold keys. induction d as [|[k v] d IH]; [done|].
  rewrite fmap_cons, (filter_cons P), (filter_cons (λ kv : string * V, P kv.1)).
  cbn [fst]. destruct (decide (P k)); [rewrite fmap_cons|]; by rewrite IH.
Qed.

Lemma keys_pop d k : keys (dict_pop d k) = filter (λ k', k' ≠ k) (keys d).
Proof. exact (keys_filter (λ k', k' ≠ k) d). Qed.

Lemma dict_get_pop_ne d k k' : k' ≠ k → dict_get (dict_pop d k) k' = dict_get d k'.
Proof.
  intros Hne. unfold dict_pop. induction d as [|[k0 v0] d IH]; [done|].
  rewrite (filter_cons (λ kv : string * V, kv.1 ≠ k)). cbn [fst].
  destruct (decide (k0 ≠ k)) as [H0|H0]; cbn [dict_get].
  - by rewrite IH.
  - apply dec_stable in H0. subst k0. rewrite IH. by rewrite decide_False.
Qed.

Lemma dict_pop_absent d k : k ∉ keys d → dict_pop d k = d.
Proof.
  unfold dict_pop, keys. induction d as [|[k0 v0] d IH]; [done|].
  rewrite fmap_cons, not_elem_of_cons.
  rewrite (filter_cons (λ kv : string * V, kv.1 ≠ k)). cbn [fst].
  intros [Hne Hd]. rewrite decide_True by done. by rewrite IH.
Qed.

Lemma dict_wf_filter (P : string * V → Prop) `{!∀ kv, Decision (P kv)} d :
  dict_wf d → dict_wf (filter P d).
Proof.
  unfold dict_wf, keys. intros Hd.
  eapply sublist_NoDup; [exact Hd|]. apply fmap_sublist, sublist_filter.
Qed.

End Dict.

(** ** The monad *)

Lemma bind_Ok {World A B} (m : M World A) (f : A → M World B) w b w' t :
  bind m f w = (Ok b, w', t) →
  ∃ a w1 t1 t2,
    m w = (Ok a, w1, t1) ∧ f a w1 = (Ok b, w', t2) ∧ t = t1 ++ t2.
Proof.
  unfold bind. destruct (m w) as [[[a|e|c] w1] t1]; [|done..].
  destruct (f a w1) as [[r w2] t2] eqn:E.
  intros [= -> -> <-]. eauto 10.
Qed.

Lemma bind_run {World A B} (m : M World A) (f : A → M World B) w a w1 t1 :
  m w = (Ok a, w1, t1) →
  bind m f w = (let '(r, w2, t2) := f a w1 in (r, w2, t1 ++ t2)).
Proof. unfold bind. intros ->. by destruct (f a w1) as [[??]?]. Qed.

Lemma bind_after {World A B} (m : M World A) (f : A → M World B) w a w1 t1 :
  m w = (Ok a, w1, t1) → bind m f w = after t1 (f a w1).
Proof. unfold bind, after. intros ->. by destruct (f a w1) as [[??]?]. Qed.

Lemma bind_Raise {World A B} (m : M World A) (f : A → M World B) w e w1 t1 :
  m w = (Raise e, w1, t1) → bind m f w = (Raise e, w1, t1).
Proof. unfold bind. by intros ->. Qed.

Lemma ret_Ok {World A} (a b : A) (w w' : World) t :
  ret a w = (Ok b, w', t) → b = a ∧ w' = w ∧ t = [].
Proof. by intros [= -> -> <-]. Qed.

Lemma ret_inv {World A} (a : A) (w w' : World) r t :
  ret a w = (r, w', t) → r = Ok a ∧ w' = w ∧ t = [].
Proof. by intros [= <- <- <-]. Qed.

(** Split a successful [bind] in hypothesis [H] into its two runs. *)
Ltac bind_inv H :=
  let a := fresh "a" in
  let w := fresh "w" in
  let t1 := fresh "t" in
  let t2 := fresh "t" in
  let H1 := fresh "Hrun" in
  apply bind_Ok in H as (a & w & t1 & t2 & H1 & H & ->).

(** ** The reconciliation loops *)

Lemma unmatched_cons (e : AttributeDef) E (D : dict AttrConfig) :
  unmatched (e :: E) D = unmatched E (dict_pop D (display_name e)).
Proof.
  unfold unmatched, dict_pop, names. rewrite fmap_cons.
  rewrite (list_filter_filter (λ kv : string * AttrConfig, kv.1 ∉ display_name <$> E)
             (λ kv : string * AttrConfig, kv.1 ≠ display_name e)).
  apply list_filter_iff. intros [k v]. cbn [fst].
  rewrite not_elem_of_cons. tauto.
Qed.

Lemma unmatched_nil (D : dict AttrConfig) : unmatched [] D = D.
Proof.
  unfold unmatched. induction D as [|kv D IH]; [done|].
  rewrite (filter_cons (λ kv : string * AttrConfig, kv.1 ∉ names [])).
  rewrite decide_True by apply not_elem_of_nil. by rewrite IH.
Qed.

Section Reconciler.
Context {World : Type} (sdk : Sdk World).
Implicit Types (w : World) (t : list event) (D : dict AttrConfig).
Implicit Types (E defs : list AttributeDef).

Lemma overwrite_scopes_Ok e attr w d w' t :
  overwrite_scopes sdk e attr w = (Ok d, w', t) → updated_from (e, attr) d.
Proof.
  unfold overwrite_scopes. intros H. bind_inv H. bind_inv H.
  apply ret_Ok in H as (-> & _ & _). by repeat split.
Qed.

Lemma new_attribute_Ok k attr w d w' t :
  new_attribute sdk k attr w = (Ok d, w', t) → created_from (k, attr) d.
Proof.
  unfold new_attribute, AttributeDef_create. intros H. bind_inv H. bind_inv H.
  destruct (AttributeDef_check sdk _); [done|].
  apply ret_Ok in H as (-> & _ & _). by repeat split.
Qed.

Lemma update_loop_Ok E D defs w D' defs' w' t :
  update_loop sdk E D defs w = (Ok (D', defs'), w', t) →
  D' = unmatched E D ∧
  ∃ upd, defs' = defs ++ upd ∧ Forall2 updated_from (matched E D) upd.
Proof.
  revert D defs w t.
  induction E as [|e E IH]; intros D defs w t; cbn [update_loop matched].
  - intros (Heq & _ & _)%ret_Ok. injection Heq as -> ->.
    split; [by rewrite unmatched_nil|].
    exists []. by rewrite app_nil_r.
  - rewrite unmatched_cons.
    destruct (dict_get D (display_name e)) as [attr|] eqn:Hget.
    + intros H. bind_inv H. apply overwrite_scopes_Ok in Hrun.
      apply IH in H as (-> & upd & -> & Hupd). split; [done|].
      exists (a :: upd). rewrite <-app_assoc. split; [done|].
      by constructor.
    + intros H. apply IH in H as (-> & upd & -> & Hupd).
      apply dict_get_None in Hget. rewrite (dict_pop_absent _ _ Hget).
      eauto.
Qed.

Lemma create_loop_Ok D defs w defs' w' t :
  create_loop sdk D defs w = (Ok defs', w', t) →
  ∃ new, defs' = defs ++ new ∧ Forall2 created_from D new.
Proof.
  revert defs w t.
  induction D as [|[k attr] D IH]; intros defs w t; cbn [create_loop].
  - intros (-> & _ & _)%ret_Ok. exists []. by rewrite app_nil_r.
  - intros H. bind_inv H. apply new_attribute_Ok in Hrun.
    apply IH in H as (new & -> & Hnew).
    exists (a :: new). rewrite <-app_assoc. split; [done|]. by constructor.
Qed.

Lemma reconcile_update_Ok existing D w L w' t :
  reconcile sdk (Some existing) D w = (Ok L, w', t) →
  ∃ upd new,
    L = upd ++ new ∧
    Forall2 updated_from (matched (attribute_defs existing) D) upd ∧
    Forall2 created_from (unmatched (attribute_defs existing) D) new.
Proof.
  unfold reconcile. intros H. bind_inv H. destruct a as [D' defs'].
  apply update_loop_Ok in Hrun as (-> & upd & -> & Hupd).
  apply create_loop_Ok in H as (new & -> & Hnew). eauto.
Qed.

End Reconciler.

(** ** What computations emit *)

Section Emits.
Context {World : Type} (sdk : Sdk World).
Implicit Types (w : World) (t : list event) (P : event → Prop).

Lemma bind_inv {A B} (m : M World A) (f : A → M World B) w r w' t :
  bind m f w = (r, w', t) →
  (∃ a w1 t1 t2,
      m w = (Ok a, w1, t1) ∧ f a w1 = (r, w', t2) ∧ t = t1 ++ t2)
  ∨ (∃ r0, m w = (r0, w', t) ∧ same_failure r0 r).
Proof.
  unfold bind. destruct (m w) as [[[a|e|c] w1] t1].
  - destruct (f a w1) as [[r2 w2] t2] eqn:E.
    intros [= <- <- <-]. left. eauto 10.
  - intros [= <- <- <-]. right. by eexists.
  - intros [= <- <- <-]. right. by eexists.
Qed.

Lemma emits_ret {A} P (a : A) : emits (World:=World) P (ret a).
Proof. by intros w r w' t [= <- <- <-]. Qed.

Lemma emits_raise {A} P e : emits (World:=World) (A:=A) P (raise e).
Proof. by intros w r w' t [= <- <- <-]. Qed.

Lemma emits_sys_exit {A} P c : emits (World:=World) (A:=A) P (sys_exit c).
Proof. by intros w r w' t [= <- <- <-]. Qed.

Lemma emits_emit P ev : P ev → emits (World:=World) P (emit ev).
Proof. intros HP w r w' t [= <- <- <-]. by constructor. Qed.

Lemma emits_print P msg : P (EvPrint msg) → emits (World:=World) P (print msg).
Proof. apply emits_emit. Qed.

Lemma emits_bind {A B} P (m : M World A) (f : A → M World B) :
  emits P m → (∀ a, emits P (f a)) → emits P (bind m f).
Proof.
  intros Hm Hf w r w' t
    [(a & w1 & t1 & t2 & H1 & H2 & ->)|(r0 & H1 & _)]%bind_inv.
  - apply Forall_app. split; [by eapply Hm | by eapply Hf].
  - by eapply Hm.
Qed.

Lemma emits_remote_read {A} P ev (op : World → (exn + A) * World) :
  P ev → emits P (remote_read ev op).
Proof.
  intros HP w r w' t. unfold remote_read.
  destruct (op w) as [[e|a] w1]; intros [= <- <- <-]; by constructor.
Qed.

Lemma emits_try_except {A} P (m : M World A) h :
  emits P m → (∀ e, emits P (h e)) → emits P (try_except m h).
Proof.
  intros Hm Hh w r w' t. unfold try_except.
  destruct (m w) as [[[a|e|c] w1] t1] eqn:E.
  - intros [= <- <- <-]. by eapply Hm.
  - destruct (h e w1) as [[r2 w2] t2] eqn:E2. intros [= <- <- <-].
    apply Forall_app. split; [by eapply Hm | by eapply Hh].
  - intros [= <- <- <-]. by eapply Hm.
Qed.

Lemma emits_try_except_NotFoundError {A} P (m h : M World A) :
  emits P m → emits P h → emits P (try_except_NotFoundError m h).
Proof.
  intros Hm Hh w r w' t. unfold try_except_NotFoundError.
  destruct (m w) as [[[a|e|c] w1] t1] eqn:E.
  - intros [= <- <- <-]. by eapply Hm.
  - destruct e; try (intros [= <- <- <-]; by eapply Hm).
    destruct (h w1) as [[r2 w2] t2] eqn:E2. intros [= <- <- <-].
    apply Forall_app. split; [by eapply Hm | by eapply Hh].
  - intros [= <- <- <-]. by eapply Hm.
Qed.

Lemma emits_weaken {A} P Q (m : M World A) :
  (∀ ev, P ev → Q ev) → emits P m → emits Q m.
Proof. intros HPQ Hm w r w' t H. eapply Forall_impl; [by eapply Hm | done]. Qed.

(** A write found in the trace of [bind m f], where [m] writes nothing, was
    emitted by [f]. *)
Lemma bind_write_inv {A B} (m : M World A) (f : A → M World B) w r w' t ev :
  emits no_write m →
  bind m f w = (r, w', t) → is_write ev = true → ev ∈ t →
  ∃ a w1 t1 t2, m w = (Ok a, w1, t1) ∧ f a w1 = (r, w', t2) ∧ ev ∈ t2.
Proof.
  intros Hm [(a & w1 & t1 & t2 & H1 & H2 & ->)|(r0 & H1 & _)]%bind_inv Hev Hin.
  - apply elem_of_app in Hin as [Hin|Hin]; [|eauto 10].
    apply Hm in H1. rewrite Forall_forall in H1. apply H1 in Hin.
    unfold no_write in Hin. congruence.
  - apply Hm in H1. rewrite Forall_forall in H1. apply H1 in Hin.
    unfold no_write in Hin. congruence.
Qed.

Lemma emits_get_all_qualified_names asset_type :
  emits no_write (_get_all_qualified_names sdk asset_type).
Proof.
  apply emits_bind; [by apply emits_remote_read | intros; apply emits_ret].
Qed.

Lemma emits_live_scope asset_type app :
  emits no_write (live_scope sdk asset_type app).
Proof.
  destruct app as [[|first rest]|]; cbn [live_scope];
    [apply emits_ret | | apply emits_ret].
  case_decide; [apply emits_get_all_qualified_names | apply emits_ret].
Qed.

Lemma emits_overwrite_scopes e attr :
  emits no_write (overwrite_scopes sdk e attr).
Proof.
  repeat (apply emits_bind; [apply emits_live_scope | intros ?]).
  apply emits_ret.
Qed.

Lemma emits_new_attribute k attr : emits no_write (new_attribute sdk k attr).
Proof.
  repeat (apply emits_bind; [apply emits_live_scope | intros ?]).
  unfold AttributeDef_create.
  destruct (AttributeDef_check sdk _); [apply emits_raise | apply emits_ret].
Qed.

Lemma emits_update_loop E D defs : emits no_write (update_loop sdk E D defs).
Proof.
  revert D defs. induction E as [|e E IH]; intros D defs; cbn [update_loop].
  - apply emits_ret.
  - destruct (dict_get D (display_name e)); [|apply IH].
    apply emits_bind; [apply emits_overwrite_scopes | intros; apply IH].
Qed.

Lemma emits_create_loop D defs : emits no_write (create_loop sdk D defs).
Proof.
  revert defs. induction D as [|[k attr] D IH]; intros defs; cbn [create_loop].
  - apply emits_ret.
  - apply emits_bind; [apply emits_new_attribute | intros; apply IH].
Qed.

Lemma emits_reconcile existing D : emits no_write (reconcile sdk existing D).
Proof.
  destruct existing as [existing|]; cbn [reconcile];
    [|apply emits_create_loop].
  apply emits_bind; [apply emits_update_loop | intros; apply emits_create_loop].
Qed.

Lemma emits_lookup_existing item : emits no_write (lookup_existing sdk item).
Proof.
  apply emits_try_except_NotFoundError; [|apply emits_ret].
  apply emits_bind; [by apply emits_remote_read | intros; apply emits_ret].
Qed.

Lemma emits_concat_name prefix name P :
  emits (World:=World) P (concat_name prefix name).
Proof. destruct name; [apply emits_ret | apply emits_raise]. Qed.

Lemma emits_CustomMetadataDef_create name P :
  emits P (CustomMetadataDef_create sdk name).
Proof.
  unfold CustomMetadataDef_create.
  destruct (CustomMetadataDef_check sdk name);
    [apply emits_raise | apply emits_ret].
Qed.

Lemma client_typedef_update_inv d w r w' t :
  client_typedef_update sdk d w = (r, w', t) → ∃ o, t = [EvUpdate d o].
Proof.
  unfold client_typedef_update.
  destruct (typedef_update sdk d w) as [[e|] w1]; intros [= <- <- <-]; eauto.
Qed.

Lemma client_typedef_create_inv d w r w' t :
  client_typedef_create sdk d w = (r, w', t) → ∃ o, t = [EvCreate d o].
Proof.
  unfold client_typedef_create.
  destruct (typedef_create sdk d w) as [[e|] w1]; intros [= <- <- <-]; eauto.
Qed.

End Emits.

(** ** Names of the reconciled list *)

Lemma names_updated M upd :
  Forall2 updated_from M upd → names upd = (λ p, display_name p.1) <$> M.
Proof.
  unfold names. induction 1 as [|p d M upd Hp _ IH]; [done|].
  rewrite !fmap_cons, IH. by destruct Hp as [-> _].
Qed.

Lemma names_created (D : dict AttrConfig) new :
  Forall2 created_from D new → names new = keys D.
Proof.
  unfold names, keys. induction 1 as [|kv d D new Hkv _ IH]; [done|].
  rewrite !fmap_cons, IH. by destruct Hkv as [-> _].
Qed.

Lemma elem_of_keys_pop {V} (D : dict V) k n :
  n ∈ keys (dict_pop D k) ↔ n ≠ k ∧ n ∈ keys D.
Proof.
  rewrite keys_pop. exact (list_elem_of_filter (λ k', k' ≠ k) (keys D) n).
Qed.

Lemma elem_of_matched_names E (D : dict AttrConfig) n :
  n ∈ matched_names E D ↔ n ∈ names E ∧ n ∈ keys D.
Proof.
  unfold matched_names, names. revert D.
  induction E as [|e E IH]; intros D; cbn [matched].
  - rewrite !fmap_nil. split; [by intros ?%elem_of_nil|].
    by intros [?%elem_of_nil _].
  - rewrite (fmap_cons display_name), elem_of_cons.
    destruct (dict_get D (display_name e)) as [a|] eqn:Hget.
    + assert (display_name e ∈ keys D) as Hin
        by (apply dict_get_is_Some; eauto).
      rewrite fmap_cons, elem_of_cons, IH, elem_of_keys_pop. cbn [fst].
      destruct (decide (n = display_name e)) as [->|Hne]; tauto.
    + apply dict_get_None in Hget. rewrite IH.
      split; [tauto|]. intros [[->|?] ?]; [done | tauto].
Qed.

Lemma NoDup_matched_names E (D : dict AttrConfig) : NoDup (matched_names E D).
Proof.
  unfold matched_names. revert D.
  induction E as [|e E IH]; intros D; cbn [matched]; [constructor|].
  destruct (dict_get D (display_name e)) as [a|]; [|apply IH].
  rewrite fmap_cons. constructor; [|apply IH]. cbn [fst].
  intros [_ [Hne _]%elem_of_keys_pop]%elem_of_matched_names. done.
Qed.

Lemma elem_of_keys_unmatched E (D : dict AttrConfig) n :
  n ∈ keys (unmatched E D) ↔ (n ∉ names E) ∧ n ∈ keys D.
Proof.
  unfold unmatched.
  pose proof (keys_filter (λ k, k ∉ names E) D) as ->.
  exact (list_elem_of_filter (λ k, k ∉ names E) (keys D) n).
Qed.

(** The names the update branch ends with: those of the matched existing
    attributes, then the keys left in the config. *)
Lemma reconciled_names E (D : dict AttrConfig) :
  dict_wf D → matched_names E D ++ keys (unmatched E D) ≡ₚ keys D.
Proof.
  intros Hwf. apply NoDup_Permutation; [|done|].
  - apply NoDup_app. split; [apply NoDup_matched_names|]. split.
    + intros n [Hn _]%elem_of_matched_names [Hn' _]%elem_of_keys_unmatched.
      done.
    + by apply (dict_wf_filter (λ kv, kv.1 ∉ names E)).
  - intros n.
    rewrite elem_of_app, elem_of_matched_names, elem_of_keys_unmatched.
    destruct (decide (n ∈ names E)); tauto.
Qed.

Section Persisted.
Context {World : Type} (sdk : Sdk World).
Implicit Types (w : World) (t : list event).

Lemma reconcile_update_names existing D w L w' t :
  reconcile sdk (Some existing) D w = (Ok L, w', t) →
  names L = matched_names (attribute_defs existing) D
            ++ keys (unmatched (attribute_defs existing) D).
Proof.
  intros (upd & new & -> & Hupd & Hnew)%reconcile_update_Ok.
  unfold names. rewrite fmap_app. fold (names upd) (names new).
  by rewrite (names_updated _ _ Hupd), (names_created _ _ Hnew).
Qed.

(** An update call found in the trace of one item carries the list the
    update branch reconciled. *)
Lemma main_item_update_inv item w r w' t d o :
  main_item sdk item w = (r, w', t) →
  EvUpdate (CustomMetadataTypeDef d) o ∈ t →
  ∃ existing w1 w2 t1,
    reconcile sdk (Some existing) (item_attributes item) w1
    = (Ok (attribute_defs d), w2, t1).
Proof.
  unfold main_item, update_branch, create_branch. intros H Hin.
  eapply bind_write_inv with (ev := EvUpdate (CustomMetadataTypeDef d) o)
      in H as (existing & w1 & t1 & t2 & _ & H & Hin2);
    [|apply emits_lookup_existing|done|done].
  destruct existing as [existing|].
  - eapply bind_write_inv with (ev := EvUpdate (CustomMetadataTypeDef d) o)
      in H as ([] & w2 & t3 & t4 & _ & H & Hin3);
      [|by apply emits_print|done|done].
    eapply bind_write_inv with (ev := EvUpdate (CustomMetadataTypeDef d) o)
      in H as (defs & w3 & t5 & t6 & Hrec & H & Hin4);
      [|apply emits_reconcile|done|done].
    apply client_typedef_update_inv in H as [o' ->].
    apply list_elem_of_singleton in Hin4. injection Hin4 as -> _.
    by exists existing, w2, w3, t5.
  - eapply bind_write_inv with (ev := EvUpdate (CustomMetadataTypeDef d) o)
      in H as (msg & w2 & t3 & t4 & _ & H & Hin3);
      [|apply emits_concat_name|done|done].
    eapply bind_write_inv with (ev := EvUpdate (CustomMetadataTypeDef d) o)
      in H as ([] & w3 & t5 & t6 & _ & H & Hin4);
      [|by apply emits_print|done|done].
    eapply bind_write_inv with (ev := EvUpdate (CustomMetadataTypeDef d) o)
      in H as (cm & w4 & t7 & t8 & _ & H & Hin5);
      [|apply emits_CustomMetadataDef_create|done|done].
    eapply bind_write_inv with (ev := EvUpdate (CustomMetadataTypeDef d) o)
      in H as (defs & w5 & t9 & t10 & _ & H & Hin6);
      [|apply emits_reconcile|done|done].
    destruct (item_has_icon item);
      [apply ret_inv in H as (_ & _ & ->); by apply elem_of_nil in Hin6|].
    destruct (item_has_emoji item);
      [apply ret_inv in H as (_ & _ & ->); by apply elem_of_nil in Hin6|].
    apply client_typedef_create_inv in H as [o' ->].
    by apply list_elem_of_singleton in Hin6.
Qed.

End Persisted.

(** ** Reconciling against a stable catalog *)

Lemma AttributeDef_eq (d1 d2 : AttributeDef) :
  display_name d1 = display_name d2 →
  attribute_type d1 = attribute_type d2 →
  options_name d1 = options_name d2 →
  multi_valued d1 = multi_valued d2 →
  applicable_connections d1 = applicable_connections d2 →
  applicable_glossaries d1 = applicable_glossaries d2 →
  applicable_domains d1 = applicable_domains d2 →
  applicable_asset_types d1 = applicable_asset_types d2 →
  applicable_glossary_types d1 = applicable_glossary_types d2 →
  applicable_domain_types d1 = applicable_domain_types d2 →
  applicable_other_asset_types d1 = applicable_other_asset_types d2 →
  d1 = d2.
Proof. destruct d1, d2; simpl; congruence. Qed.

Lemma dict_get_pop_Some {V} (D : dict V) k k' v :
  dict_get (dict_pop D k) k' = Some v → dict_get D k' = Some v.
Proof.
  destruct (decide (k' = k)) as [->|Hne]; [|by rewrite dict_get_pop_ne].
  intros H. assert (k ∈ keys (dict_pop D k)) as [? _]%elem_of_keys_pop
    by (apply dict_get_is_Some; eauto). done.
Qed.

Lemma dict_get_elem_of {V} (D : dict V) k v :
  dict_wf D → (k, v) ∈ D → dict_get D k = Some v.
Proof.
  unfold dict_wf, keys. induction D as [|[k' v'] D IH]; [by intros _ ?%elem_of_nil|].
  rewrite fmap_cons, NoDup_cons. cbn [fst dict_get]. intros [Hk Hwf] Hin.
  apply elem_of_cons in Hin as [[= <- <-]|Hin]; [by rewrite decide_True|].
  rewrite decide_False; [by apply IH|].
  intros ->. apply Hk. by apply (list_elem_of_fmap_2 fst) in Hin.
Qed.

Lemma matched_sound E (D : dict AttrConfig) :
  Forall (λ p, p.1 ∈ E ∧ dict_get D (display_name p.1) = Some p.2)
    (matched E D).
Proof.
  revert D. induction E as [|e E IH]; intros D; cbn [matched]; [constructor|].
  destruct (dict_get D (display_name e)) as [a|] eqn:Hget.
  - constructor; [split; [left | done]|].
    eapply Forall_impl; [apply IH|]. intros p [Hin Hp].
    split; [by right | by eapply dict_get_pop_Some].
  - eapply Forall_impl; [apply IH|]. intros p [Hin Hp]. split; [by right|done].
Qed.

Lemma unmatched_sound E (D : dict AttrConfig) :
  dict_wf D →
  Forall (λ kv, (kv.1 ∉ names E) ∧ dict_get D kv.1 = Some kv.2)
    (unmatched E D).
Proof.
  intros Hwf. apply Forall_forall. intros [k v] Hin.
  apply (list_elem_of_filter (λ kv : string * AttrConfig, kv.1 ∉ names E))
    in Hin as [Hk Hin].
  split; [done | by apply dict_get_elem_of].
Qed.

Lemma unmatched_covered E (D : dict AttrConfig) :
  (∀ n, n ∈ keys D → n ∈ names E) → unmatched E D = [].
Proof.
  intros Hcov. unfold unmatched, keys in *.
  induction D as [|[k v] D IH]; [done|].
  rewrite (filter_cons (λ kv : string * AttrConfig, kv.1 ∉ names E)).
  rewrite decide_False.
  - apply IH. intros n Hn. apply Hcov. rewrite fmap_cons. by right.
  - intros Hk. apply Hk, Hcov. rewrite fmap_cons. left.
Qed.

Section Stable.
Context {World : Type} (sdk : Sdk World).
Context (snapshot : string → list SearchResult).
Hypothesis Hstable : stable_search sdk snapshot.
Implicit Types (w : World) (t : list event) (D : dict AttrConfig).

Lemma get_all_qualified_names_stable asset_type w :
  _get_all_qualified_names sdk asset_type w
  = (Ok (qualified_names_of (snapshot asset_type)), w, [EvSearch asset_type]).
Proof.
  unfold _get_all_qualified_names, bind, remote_read. by rewrite Hstable.
Qed.

Lemma live_scope_stable asset_type app w :
  ∃ t, live_scope sdk asset_type app w
       = (Ok (static_scope (qualified_names_of (snapshot asset_type)) app),
          w, t).
Proof.
  destruct app as [[|first rest]|]; cbn [live_scope static_scope];
    [by eexists | | by eexists].
  case_decide; [|by eexists].
  rewrite get_all_qualified_names_stable. by eexists.
Qed.

Lemma overwrite_scopes_stable e attr w :
  ∃ d t,
    overwrite_scopes sdk e attr w = (Ok d, w, t)
    ∧ updated_from (e, attr) d ∧ live_scopes_from snapshot attr d.
Proof.
  unfold overwrite_scopes.
  destruct (live_scope_stable "Connection" (cfg_applicable_connections attr) w)
    as [t1 H1].
  destruct (live_scope_stable "AtlasGlossary" (cfg_applicable_glossaries attr) w)
    as [t2 H2].
  rewrite (bind_run _ _ _ _ _ _ H1), (bind_run _ _ _ _ _ _ H2).
  cbn [ret]. do 2 eexists. split; [done|]. by repeat split.
Qed.

Lemma overwrite_scopes_fixpoint D d w :
  scoped_by snapshot D d →
  ∃ attr t,
    dict_get D (display_name d) = Some attr
    ∧ overwrite_scopes sdk d attr w = (Ok d, w, t).
Proof.
  intros (attr & Hget & (?&?&?&?&?) & (?&?)).
  destruct (overwrite_scopes_stable d attr w)
    as (d' & t & Hrun & (?&?&?&?&?&?&?&?&?) & (?&?)).
  exists attr, t. split; [done|]. rewrite Hrun. do 3 f_equal.
  apply AttributeDef_eq; simpl in *; congruence.
Qed.

Lemma overwrite_scopes_scoped D e attr w d w' t :
  dict_get D (display_name e) = Some attr →
  overwrite_scopes sdk e attr w = (Ok d, w', t) → scoped_by snapshot D d.
Proof.
  intros Hget Hrun.
  destruct (overwrite_scopes_stable e attr w)
    as (d' & t' & Hrun' & Hupd & Hlive).
  rewrite Hrun in Hrun'. injection Hrun' as <- _ _.
  exists attr. destruct Hupd as (-> & _ & _ & _ & Hstatic). done.
Qed.

Lemma new_attribute_scoped D k attr w d w' t :
  dict_get D k = Some attr →
  new_attribute sdk k attr w = (Ok d, w', t) → scoped_by snapshot D d.
Proof.
  intros Hget. unfold new_attribute, AttributeDef_create.
  destruct (live_scope_stable "Connection" (cfg_applicable_connections attr) w)
    as [t1 H1].
  destruct (live_scope_stable "AtlasGlossary" (cfg_applicable_glossaries attr) w)
    as [t2 H2].
  rewrite (bind_run _ _ _ _ _ _ H1), (bind_run _ _ _ _ _ _ H2).
  destruct (AttributeDef_check sdk _); [done|].
  cbn [ret]. intros [= <- <- <-]. exists attr. by repeat split.
Qed.

(** Every attribute of a reconciled list carries the scopes its config
    entry asks for. *)
Lemma reconcile_scoped existing D w L w' t :
  dict_wf D →
  reconcile sdk existing D w = (Ok L, w', t) →
  Forall (scoped_by snapshot D) L.
Proof.
  intros Hwf.
  assert (∀ D0 defs w L w' t,
            Forall (λ kv, dict_get D kv.1 = Some kv.2) D0 →
            Forall (scoped_by snapshot D) defs →
            create_loop sdk D0 defs w = (Ok L, w', t) →
            Forall (scoped_by snapshot D) L) as Hcreate.
  { clear w L w' t. intros D0. induction D0 as [|[k attr] D0 IH];
      intros defs w L w' t HD0 Hdefs; cbn [create_loop].
    - by intros (-> & _ & _)%ret_Ok.
    - intros H. bind_inv H. apply Forall_cons in HD0 as [Hk HD0].
      eapply IH; [done| |exact H].
      apply Forall_app. split; [done|]. constructor; [|constructor].
      by eapply new_attribute_scoped. }
  assert (∀ E D1 defs w r w' t,
            (∀ k v, dict_get D1 k = Some v → dict_get D k = Some v) →
            Forall (scoped_by snapshot D) defs →
            update_loop sdk E D1 defs w = (Ok r, w', t) →
            Forall (scoped_by snapshot D) r.2) as Hupdate.
  { clear w L w' t. intros E. induction E as [|e E IH];
      intros D1 defs w r w' t HD1 Hdefs; cbn [update_loop].
    - by intros (-> & _ & _)%ret_Ok.
    - destruct (dict_get D1 (display_name e)) as [attr|] eqn:Hget;
        [|by apply IH].
      intros H. bind_inv H. eapply IH; [| |exact H].
      + intros k v Hk%dict_get_pop_Some. auto.
      + apply Forall_app. split; [done|]. constructor; [|constructor].
        eapply overwrite_scopes_scoped; [|done]. auto. }
  destruct existing as [existing|]; cbn [reconcile].
  - intros H. bind_inv H. destruct a as [D' defs'].
    pose proof (Hupdate _ _ _ _ _ _ _ (λ k v Hk, Hk) (Forall_nil_2 _) Hrun)
      as Hdefs'.
    apply update_loop_Ok in Hrun as (-> & _).
    eapply Hcreate; [|exact Hdefs'|exact H].
    eapply Forall_impl; [by apply unmatched_sound|]. by intros kv [_ ?].
  - apply Hcreate; [|constructor].
    apply Forall_forall. intros [k v] Hin. by apply dict_get_elem_of.
Qed.

(** The update loop leaves attributes alone that already carry the scopes
    of the config and have distinct names. *)
Lemma update_loop_fixpoint D L D1 defs w :
  Forall (scoped_by snapshot D) L → NoDup (names L) →
  (∀ d, d ∈ L → dict_get D1 (display_name d) = dict_get D (display_name d)) →
  ∃ t, update_loop sdk L D1 defs w = (Ok (unmatched L D1, defs ++ L), w, t).
Proof.
  unfold names. revert D1 defs.
  induction L as [|d L IH]; intros D1 defs Hsc Hnd Hagree; cbn [update_loop].
  - rewrite unmatched_nil, app_nil_r. by eexists.
  - apply Forall_cons in Hsc as [Hd Hsc].
    rewrite fmap_cons in Hnd. apply NoDup_cons in Hnd as [Hfresh Hnd].
    destruct (overwrite_scopes_fixpoint D d w Hd) as (attr & t1 & Hget & Hrun).
    rewrite Hagree, Hget by left.
    rewrite (bind_run _ _ _ _ _ _ Hrun), unmatched_cons.
    destruct (IH (dict_pop D1 (display_name d)) (defs ++ [d]) Hsc Hnd)
      as [t2 ->].
    + intros d' Hd'. rewrite dict_get_pop_ne; [apply Hagree; by right|].
      intros Heq. apply Hfresh. rewrite <-Heq. by apply list_elem_of_fmap_2.
    + rewrite <-app_assoc. by eexists.
Qed.

End Stable.

(** ** Reconciliation against a stable catalog and a permissive SDK ends
    with a list *)

Section Total.
Context {World : Type} (sdk : Sdk World).
Context (snapshot : string → list SearchResult).
Hypothesis Hstable : stable_search sdk snapshot.
Hypothesis Haccepts : ∀ d, AttributeDef_check sdk d = None.
Implicit Types (w : World) (t : list event) (D : dict AttrConfig).

Lemma new_attribute_total k attr w :
  ∃ d t, new_attribute sdk k attr w = (Ok d, w, t).
Proof.
  unfold new_attribute, AttributeDef_create.
  destruct (live_scope_stable sdk snapshot Hstable "Connection"
              (cfg_applicable_connections attr) w) as [t1 H1].
  destruct (live_scope_stable sdk snapshot Hstable "AtlasGlossary"
              (cfg_applicable_glossaries attr) w) as [t2 H2].
  rewrite (bind_run _ _ _ _ _ _ H1), (bind_run _ _ _ _ _ _ H2), Haccepts.
  by do 2 eexists.
Qed.

Lemma create_loop_total D defs w :
  ∃ L t, create_loop sdk D defs w = (Ok L, w, t).
Proof.
  revert defs. induction D as [|[k attr] D IH]; intros defs;
    cbn [create_loop]; [by do 2 eexists|].
  destruct (new_attribute_total k attr w) as (d & t1 & Hnew).
  rewrite (bind_run _ _ _ _ _ _ Hnew).
  destruct (IH (defs ++ [d])) as (L & t2 & ->). by do 2 eexists.
Qed.

Lemma update_loop_total E D defs w :
  ∃ r t, update_loop sdk E D defs w = (Ok r, w, t).
Proof.
  revert D defs. induction E as [|e E IH]; intros D defs;
    cbn [update_loop]; [by do 2 eexists|].
  destruct (dict_get D (display_name e)) as [attr|]; [|apply IH].
  destruct (overwrite_scopes_stable sdk snapshot Hstable e attr w)
    as (d & t1 & Hrun & _).
  rewrite (bind_run _ _ _ _ _ _ Hrun).
  destruct (IH (dict_pop D (display_name e)) (defs ++ [d])) as (r & t2 & ->).
  by do 2 eexists.
Qed.

Lemma reconcile_total existing D w :
  ∃ L t, reconcile sdk existing D w = (Ok L, w, t).
Proof.
  destruct existing as [existing|]; cbn [reconcile];
    [|apply create_loop_total].
  destruct (update_loop_total (attribute_defs existing) D [] w)
    as (r & t1 & Hrun).
  rewrite (bind_run _ _ _ _ _ _ Hrun).
  destruct (create_loop_total r.1 r.2 w) as (L & t2 & ->). by do 2 eexists.
Qed.

(** The update branch then reaches its update call. *)
Lemma update_branch_calls_update existing item w :
  ∃ d o r w' t,
    update_branch sdk existing item w = (r, w', t)
    ∧ EvUpdate (CustomMetadataTypeDef d) o ∈ t.
Proof.
  unfold update_branch.
  destruct (reconcile_total (Some existing) (item_attributes item) w)
    as (L & t1 & Hrec).
  rewrite (bind_after (print _) _ _ tt _ [_] eq_refl).
  rewrite (bind_after _ _ _ _ _ _ Hrec). unfold after, client_typedef_update.
  destruct (typedef_update sdk _ w) as [[e|] w']; cbn [fst snd];
    do 5 eexists; (split; [done|]);
    apply elem_of_app; right; apply elem_of_app; right; left.
Qed.

End Total.

(** * The claims about reconciliation and scopes *)

Lemma run_eta {World A} (x : Res A * World * list event) :
  x = (x.1.1, x.1.2, x.2).
Proof. by destruct x as [[??]?]. Qed.

Lemma reconcile_names {World} (sdk : Sdk World) existing D w L w' t :
  dict_wf D →
  reconcile sdk existing D w = (Ok L, w', t) → names L ≡ₚ keys D.
Proof.
  intros Hwf. destruct existing as [existing|].
  - intros ->%reconcile_update_names. by apply reconciled_names.
  - cbn [reconcile]. intros (new & -> & Hnew)%create_loop_Ok.
    by rewrite app_nil_l, (names_created _ _ Hnew).
Qed.

(** C9: in the update path the display names of the list handed to the
    update call are the keys of the desired mapping, each once, whatever
    the existing definition holds (duplicates included); no other name
    survives. *)
Theorem update_persists_desired_names {World} (sdk : Sdk World)
    item w r w' t d o :
  dict_wf (item_attributes item) →
  main_item sdk item w = (r, w', t) →
  EvUpdate (CustomMetadataTypeDef d) o ∈ t →
  names (attribute_defs d) ≡ₚ keys (item_attributes item)
  ∧ NoDup (names (attribute_defs d)).
Proof.
  intros Hwf Hrun Hin.
  destruct (main_item_update_inv sdk _ _ _ _ _ _ _ Hrun Hin)
    as (existing & w1 & w2 & t1 & Hrec).
  assert (names (attribute_defs d) ≡ₚ keys (item_attributes item)) as Hperm
    by (by eapply reconcile_names).
  split; [done|]. by rewrite Hperm.
Qed.

Lemma update_persists_desired_names_witness :
  names Demo.reconciled ≡ₚ ["B"; "C"] ∧ NoDup (names Demo.reconciled).
Proof.
  apply (update_persists_desired_names Demo.sdk Demo.item Demo.duplicated
           (Ok tt) Demo.updated_catalog
           [EvGetCustomMetadata (Some "Ownership");
            EvPrint "Updating Ownership";
            EvUpdate (CustomMetadataTypeDef Demo.ownership_reconciled) None]
           Demo.ownership_reconciled None).
  - by apply (bool_decide_unpack _).
  - reflexivity.
  - do 2 right. left.
Defined.






(** The examples of the specification for the asset-type scope. *)
Example scope_of_all :
  static_scope _complete_type_list (Some ["all"]) = _complete_type_list.
Proof. reflexivity. Qed.

Example scope_of_table_view :
  static_scope _complete_type_list (Some ["Table"; "View"])
  = {[ "Table"; "View" ]}.
Proof. reflexivity. Qed.

Example scope_of_absent : static_scope _complete_type_list None = ∅.
Proof. reflexivity. Qed.




(** * The claims about the loop of [cm_generator.py] *)

Lemma lookup_existing_run {World} (sdk : Sdk World) item w :
  lookup_existing sdk item w
  = match get_custom_metadata_def sdk (item_name item) w with
    | (inr existing, w1) =>
        (Ok (Some existing), w1, [EvGetCustomMetadata (item_name item)])
    | (inl NotFoundError, w1) =>
        (Ok None, w1, [EvGetCustomMetadata (item_name item)])
    | (inl e, w1) => (Raise e, w1, [EvGetCustomMetadata (item_name item)])
    end.
Proof.
  unfold lookup_existing, try_except_NotFoundError, bind, remote_read, ret.
  destruct (get_custom_metadata_def sdk (item_name item) w) as [[e|d] w1];
    [by destruct e | done].
Qed.

Lemma lookup_enum_run {World} (sdk : Sdk World) item w :
  lookup_enum sdk item w
  = match typedef_get_by_name sdk (enum_item_name item) w with
    | (inr num_def, w1) =>
        (Ok (Some num_def), w1, [EvGetByName (enum_item_name item)])
    | (inl NotFoundError, w1) =>
        (Ok None, w1, [EvGetByName (enum_item_name item)])
    | (inl e, w1) => (Raise e, w1, [EvGetByName (enum_item_name item)])
    end.
Proof.
  unfold lookup_enum, try_except_NotFoundError, bind, remote_read, ret.
  destruct (typedef_get_by_name sdk (enum_item_name item) w) as [[e|d] w1];
    [by destruct e | done].
Qed.

Lemma main_item_routes {World} (sdk : Sdk World) item w :
  main_item sdk item w
  = match get_custom_metadata_def sdk (item_name item) w with
    | (inr existing, w1) =>
        after [EvGetCustomMetadata (item_name item)]
          (update_branch sdk existing item w1)
    | (inl NotFoundError, w1) =>
        after [EvGetCustomMetadata (item_name item)]
          (create_branch sdk item w1)
    | (inl e, w1) => (Raise e, w1, [EvGetCustomMetadata (item_name item)])
    end.
Proof.
  unfold main_item. pose proof (lookup_existing_run sdk item w) as Hrun.
  destruct (get_custom_metadata_def sdk (item_name item) w) as [[e|d] w1].
  - destruct e;
      first [by rewrite (bind_Raise _ _ _ _ _ _ Hrun)
            | by rewrite (bind_after _ _ _ _ _ _ Hrun)].
  - by rewrite (bind_after _ _ _ _ _ _ Hrun).
Qed.

Lemma options_item_routes {World} (sdk : Sdk World) item w :
  options_item sdk item w
  = match typedef_get_by_name sdk (enum_item_name item) w with
    | (inr num_def, w1) =>
        after [EvGetByName (enum_item_name item)]
          (options_update_branch sdk num_def item w1)
    | (inl NotFoundError, w1) =>
        after [EvGetByName (enum_item_name item)]
          (options_create_branch sdk item w1)
    | (inl e, w1) => (Raise e, w1, [EvGetByName (enum_item_name item)])
    end.
Proof.
  unfold options_item. pose proof (lookup_enum_run sdk item w) as Hrun.
  destruct (typedef_get_by_name sdk (enum_item_name item) w) as [[e|d] w1].
  - destruct e;
      first [by rewrite (bind_Raise _ _ _ _ _ _ Hrun)
            | by rewrite (bind_after _ _ _ _ _ _ Hrun)].
  - by rewrite (bind_after _ _ _ _ _ _ Hrun).
Qed.

(** C7, as stated, fails: the existence check on an item without a name
    ends in an SDK error, which is not "not found", and the item is not
    routed to the update branch: the run ends with that error. *)
Lemma other_error_not_routed :
  ¬ routing_as_stated Demo.sdk Demo.nameless Demo.catalog.
Proof.
  intros H.
  destruct (H (SdkError "custom metadata name is required") Demo.catalog)
    as [existing Hrun]; [reflexivity|done|].
  assert (main_item Demo.sdk Demo.nameless Demo.catalog
          = (Raise (SdkError "custom metadata name is required"),
             Demo.catalog, [EvGetCustomMetadata None])) as Hraise
    by reflexivity.
  rewrite Hraise in Hrun. unfold update_branch in Hrun.
  rewrite (bind_after (print _) _ _ tt _ [_] eq_refl) in Hrun.
  unfold after in Hrun. injection Hrun as _ _ Ht. discriminate Ht.
Qed.

(** C7, amended: in both scripts a "not found" from the existence check
    routes the item to the create branch and a returned definition routes
    it to the update branch; any other error of the check is not caught and
    ends the run, the item being neither created nor updated. *)
Theorem existence_check_routes {World} (sdk : Sdk World) :
  (∀ item w,
     main_item sdk item w
     = match get_custom_metadata_def sdk (item_name item) w with
       | (inr existing, w1) =>
           after [EvGetCustomMetadata (item_name item)]
             (update_branch sdk existing item w1)
       | (inl NotFoundError, w1) =>
           after [EvGetCustomMetadata (item_name item)]
             (create_branch sdk item w1)
       | (inl e, w1) => (Raise e, w1, [EvGetCustomMetadata (item_name item)])
       end)
  ∧ (∀ item w,
       options_item sdk item w
       = match typedef_get_by_name sdk (enum_item_name item) w with
         | (inr num_def, w1) =>
             after [EvGetByName (enum_item_name item)]
               (options_update_branch sdk num_def item w1)
         | (inl NotFoundError, w1) =>
             after [EvGetByName (enum_item_name item)]
               (options_create_branch sdk item w1)
         | (inl e, w1) => (Raise e, w1, [EvGetByName (enum_item_name item)])
         end).
Proof. split; [apply main_item_routes | apply options_item_routes]. Qed.

(** C8, as stated, fails: an item with an [icon] key whose definition
    exists is updated like any other. *)
Lemma stub_item_updated :
  ¬ skips_stub_as_stated Demo.sdk Demo.icon_item Demo.catalog.
Proof.
  intros H.
  assert (main_item Demo.sdk Demo.icon_item Demo.catalog
          = (Ok tt, Demo.updated_catalog,
             [EvGetCustomMetadata (Some "Ownership");
              EvPrint "Updating Ownership";
              EvUpdate (CustomMetadataTypeDef Demo.ownership_reconciled) None]))
    as Hrun by reflexivity.
  apply H in Hrun; [|by left].
  apply Forall_cons in Hrun as [_ Hrun]. apply Forall_cons in Hrun as [_ Hrun].
  by apply Forall_cons in Hrun as [Hwrite _].
Qed.

Lemma emits_create_branch_stub {World} (sdk : Sdk World) item :
  item_has_icon item = true ∨ item_has_emoji item = true →
  emits no_write (create_branch sdk item).
Proof.
  intros Hstub. unfold create_branch.
  apply emits_bind; [apply emits_concat_name | intros msg].
  apply emits_bind; [by apply emits_print | intros _].
  apply emits_bind; [apply emits_CustomMetadataDef_create | intros cm_def].
  apply emits_bind; [apply emits_reconcile | intros defs].
  destruct (item_has_icon item); [apply emits_ret|].
  destruct (item_has_emoji item); [apply emits_ret|].
  by destruct Hstub.
Qed.

(** C8, amended: an item with an [icon] or [emoji] key that is routed to
    the create branch is skipped, no create or update call being issued for
    it; the update branch does not read the two keys. *)
Theorem stub_skipped_on_create {World} (sdk : Sdk World) item :
  item_has_icon item = true ∨ item_has_emoji item = true →
  emits no_write (create_branch sdk item)
  ∧ ∀ existing icon emoji,
      update_branch sdk existing (with_stub_keys icon emoji item)
      = update_branch sdk existing item.
Proof.
  intros Hstub. split; [by apply emits_create_branch_stub | done].
Qed.

Lemma stub_skipped_on_create_witness :
  emits no_write (create_branch Demo.sdk Demo.stub_item)
  ∧ ∀ existing icon emoji,
      update_branch Demo.sdk existing
        (with_stub_keys icon emoji Demo.stub_item)
      = update_branch Demo.sdk existing Demo.stub_item.
Proof.
  apply (stub_skipped_on_create Demo.sdk Demo.stub_item). right. reflexivity.
Defined.

(** C4, as stated, fails: an entry of unknown type for an attribute that
    exists raises nothing, and the update call is made. *)
Lemma unknown_type_updated :
  ¬ fails_fast_as_stated Demo.sdk Demo.mistyped Demo.catalog.
Proof.
  intros H.
  assert (main_item Demo.sdk Demo.mistyped Demo.catalog
          = (Ok tt,
             {| Demo.typedefs :=
                  [CustomMetadataTypeDef Demo.mistyped_reconciled];
                Demo.writable := true |},
             [EvGetCustomMetadata (Some "Ownership");
              EvPrint "Updating Ownership";
              EvUpdate (CustomMetadataTypeDef Demo.mistyped_reconciled) None]))
    as Hrun by reflexivity.
  apply H in Hrun as [Hfailed _]; [done|].
  right. exists "B", (Demo.attr "unknown" (Some ["Column"])), "unknown".
  split; [left|]. split; [done|]. by apply (bool_decide_unpack _).
Qed.

Lemma mapping_get_None ty :
  mapping_get (Some ty) = None ↔ ty ∉ primitive_type_names.
Proof.
  unfold mapping_get, mapping, primitive_type_names. cbn [mbind option_bind].
  rewrite <-not_elem_of_list_to_map. cbn [fmap list_fmap fst]. done.
Qed.

(** What [new_attribute] raises comes from the SDK: from a search or from
    [AttributeDef.create]. *)
Lemma new_attribute_Raise {World} (sdk : Sdk World) k attr w e w' t :
  new_attribute sdk k attr w = (Raise e, w', t) →
  (∃ asset_type w0 w1, asset_search sdk asset_type w0 = (inl e, w1))
  ∨ ∃ d, AttributeDef_check sdk d = Some e
         ∧ attribute_type d = mapping_get (cfg_type attr).
Proof.
  assert (∀ asset_type app w r w' t,
            live_scope sdk asset_type app w = (r, w', t) →
            (∃ s, r = Ok s)
            ∨ ∃ e w0 w1, r = Raise e
                         ∧ asset_search sdk asset_type w0 = (inl e, w1))
    as Hlive.
  { clear. intros asset_type app w r w' t.
    destruct app as [[|first rest]|]; cbn [live_scope];
      try (intros [= <- <- <-]; left; by eexists).
    case_decide; [|intros [= <- <- <-]; left; by eexists].
    unfold _get_all_qualified_names, bind, remote_read.
    destruct (asset_search sdk asset_type w) as [[e|rs] w1] eqn:Hs;
      intros [= <- <- <-]; [right; eauto 10 | left; by eexists]. }
  unfold new_attribute, AttributeDef_create.
  intros [(conn & w1 & t1 & t2 & H1 & H & ->)|(r0 & H1 & Hf)]%bind_inv.
  - apply bind_inv in H
      as [(gloss & w2 & t3 & t4 & H2 & H & ->)|(r0 & H2 & Hf)].
    + destruct (AttributeDef_check sdk _) as [e'|] eqn:Hcheck; [|done].
      injection H as -> _ _. right. eexists. split; [exact Hcheck|done].
    + apply Hlive in H2 as [[s ->]|(e' & w0 & w3 & -> & Hs)]; [done|].
      cbn in Hf. subst e'. left. eauto.
  - apply Hlive in H1 as [[s ->]|(e' & w0 & w3 & -> & Hs)]; [done|].
    cbn in Hf. subst e'. left. eauto.
Qed.

Lemma new_attribute_accepted {World} (sdk : Sdk World) k attr w d w' t :
  new_attribute sdk k attr w = (Ok d, w', t) →
  attribute_type d = mapping_get (cfg_type attr)
  ∧ AttributeDef_check sdk d = None.
Proof.
  intros H. split; [by apply new_attribute_Ok in H as (_ & ? & _)|].
  unfold new_attribute, AttributeDef_create in H. bind_inv H. bind_inv H.
  destruct (AttributeDef_check sdk _) eqn:Hcheck; [done|].
  by apply ret_Ok in H as (-> & _ & _).
Qed.

(** C4, amended: the script validates nothing itself.  A type string
    outside the ten names maps to no primitive type; for a new attribute
    that value goes to the SDK's [AttributeDef.create], and an exception
    can only come from the SDK; for an attribute that exists the type is
    not read.  An item without a name that reaches the create branch fails
    on the string concatenation, before any remote call. *)
Theorem unknown_type_not_validated {World} (sdk : Sdk World) :
  (∀ ty, mapping_get (Some ty) = None ↔ ty ∉ primitive_type_names)
  ∧ (∀ e attr ty,
       overwrite_scopes sdk e (with_type ty attr) = overwrite_scopes sdk e attr)
  ∧ (∀ k attr w d w' t,
       new_attribute sdk k attr w = (Ok d, w', t) →
       attribute_type d = mapping_get (cfg_type attr)
       ∧ AttributeDef_check sdk d = None)
  ∧ (∀ k attr w e w' t,
       new_attribute sdk k attr w = (Raise e, w', t) →
       (∃ asset_type w0 w1, asset_search sdk asset_type w0 = (inl e, w1))
       ∨ ∃ d, AttributeDef_check sdk d = Some e
              ∧ attribute_type d = mapping_get (cfg_type attr))
  ∧ (∀ item w,
       item_name item = None →
       create_branch sdk item w
       = (Raise (TypeError "can only concatenate str (not NoneType) to str"),
          w, [])).
Proof.
  split; [apply mapping_get_None|]. split; [done|].
  split; [apply new_attribute_accepted|].
  split; [apply new_attribute_Raise|].
  intros item w Hname. unfold create_branch. by rewrite Hname.
Qed.

Lemma unknown_type_not_validated_witness :
  create_branch Demo.sdk Demo.nameless Demo.read_only
  = (Raise (TypeError "can only concatenate str (not NoneType) to str"),
     Demo.read_only, []).
Proof.
  apply (proj2 (proj2 (proj2 (proj2 (unknown_type_not_validated Demo.sdk))))
           Demo.nameless Demo.read_only).
  reflexivity.
Defined.

(** * The claims about [createTags.py] and the environment *)

Section Tags.
Context {World : Type} (sdk : Sdk World).
Implicit Types (w : World) (t : list event) (config : gmap string string).

Lemma bind_tag_def_cases ty n config w r w' t :
  bind_tag_def sdk ty n config w = (r, w', t) →
  w' = w ∧ t = []
  ∧ (r = Ok None
     ∨ (∃ d, r = Ok (Some d) ∧ tag_def_name d = n)
     ∨ ∃ e, r = Raise e).
Proof.
  unfold bind_tag_def, getitem, AtlanTagColor_getitem, AtlanIcon_call,
    AtlanTagDef_create, bind, ret, raise.
  repeat case_decide; repeat case_match; intros; simplify_eq;
    (split; [done|]); (split; [done|]); eauto.
Qed.

Lemma bind_tag_def_unknown ty n config w :
  ty ∉ tag_types → bind_tag_def sdk ty n config w = (Ok None, w, []).
Proof.
  unfold tag_types. rewrite !not_elem_of_cons. intros (? & ? & ? & _).
  unfold bind_tag_def. by rewrite !decide_False by done.
Qed.

Lemma create_tag_body_cases ty n config w r w' t :
  create_tag_body sdk ty n config w = (r, w', t) →
  (r = Ok (Some n)
   ∧ ∃ d, tag_def_name d = n ∧ EvCreate (TagTypeDef d) None ∈ t)
  ∨ (∃ e, r = Raise e ∧ Forall no_created t).
Proof.
  unfold create_tag_body, bind.
  destruct (bind_tag_def sdk ty n config w) as [[rb wb] tb] eqn:Hb.
  apply bind_tag_def_cases in Hb as (-> & -> & [->|[(d & -> & Hd)|[e ->]]]).
  - cbn. intros [= <- <- <-]. right. eauto.
  - cbn. unfold client_typedef_create.
    destruct (typedef_create sdk (TagTypeDef d) w) as [[e|] w1].
    + intros [= <- <- <-]. right. eexists. split; [done|].
      constructor; [by intros d'|constructor].
    + cbn. intros [= <- <- <-]. left. split; [done|].
      exists d. split; [done|left].
  - intros [= <- <- <-]. right. eauto.
Qed.

(** With its two keys present an entry never raises out of
    [create_tag_from_config]: it yields its name after an accepted create
    call, or [None] after a logged error and no accepted create call. *)
Lemma create_tag_from_config_cases config ty n w :
  config !! "type" = Some ty → config !! "name" = Some n →
  ∃ res w' t,
    create_tag_from_config sdk config w = (Ok res, w', t)
    ∧ ((res = Some n
        ∧ ∃ d, tag_def_name d = n ∧ EvCreate (TagTypeDef d) None ∈ t)
       ∨ (res = None
          ∧ (∃ e, error_line n e ∈ t) ∧ Forall no_created t)).
Proof.
  intros Hty Hn. unfold create_tag_from_config, getitem.
  rewrite Hty, Hn. unfold bind at 1 2, ret at 1 2, try_except.
  destruct (create_tag_body sdk ty n config w) as [[rb wb] tb] eqn:Hb.
  pose proof (create_tag_body_cases _ _ _ _ _ _ _ Hb)
    as [(-> & d & Hd & Hin)|(e & -> & Hno)].
  - cbn. do 3 eexists. split; [done|]. left. eauto.
  - cbn. do 3 eexists. split; [done|]. right. split; [done|]. split.
    + exists e. apply elem_of_app. right. left.
    + apply Forall_app. split; [done|].
      constructor; [by intros d'|constructor].
Qed.

Lemma collect_app (created : list string) (res : option string) :
  (if truthy res then created ++ [default "" res] else created)
  = created ++ (if truthy res then [default "" res] else []).
Proof. destruct (truthy res); by rewrite ?app_nil_r. Qed.

Lemma create_tags_loop_runs configs created0 w :
  Forall has_type_and_name configs →
  ∃ created w' t,
    create_tags_loop sdk configs created0 w = (Ok (created0 ++ created), w', t)
    ∧ ∀ n, n ∈ created →
           ∃ d, tag_def_name d = n ∧ EvCreate (TagTypeDef d) None ∈ t.
Proof.
  intros Hall. revert created0 w.
  induction Hall as [|config configs [[ty Hty] [n Hn]] _ IH];
    intros created0 w; cbn [create_tags_loop].
  - exists [], w, []. rewrite app_nil_r. split; [done|].
    by intros n ?%elem_of_nil.
  - destruct (create_tag_from_config_cases config ty n w Hty Hn)
      as (res & w1 & t1 & Hrun & Hres).
    rewrite (bind_after _ _ _ _ _ _ Hrun), collect_app. unfold after.
    set (x := if truthy res then [default "" res] else []).
    destruct (IH (created0 ++ x) w1) as (created & w2 & t2 & -> & Hc).
    exists (x ++ created), w2, (t1 ++ t2). cbn [fst snd].
    rewrite <-app_assoc. split; [done|].
    intros n' [Hn'|Hn']%elem_of_app.
    + destruct Hres as [(-> & d & Hd & Hin)|(-> & _ & _)];
        [|by apply elem_of_nil in Hn'].
      subst x. destruct (truthy (Some n)); [|by apply elem_of_nil in Hn'].
      apply list_elem_of_singleton in Hn' as ->.
      exists d. split; [done|]. apply elem_of_app. by left.
    + destruct (Hc n' Hn') as (d' & ? & ?). exists d'.
      split; [done|]. apply elem_of_app. by right.
Qed.

Lemma try_except_Ok {A} (m : M World A) h w a w1 t1 :
  m w = (Ok a, w1, t1) → try_except m h w = (Ok a, w1, t1).
Proof. unfold try_except. by intros ->. Qed.

Lemma print_tags_run created w :
  print_tags created w = (Ok tt, w, (λ n, EvPrint ("- " +:+ n)) <$> created).
Proof.
  induction created as [|n created IH]; [done|]. cbn [print_tags].
  rewrite (bind_after (print _) _ _ tt _ [_] eq_refl), IH. done.
Qed.

Lemma createTags_main_runs key tenant configs w :
  AtlanClient_check sdk tenant key = None →
  Forall has_type_and_name configs →
  ∃ created w' t,
    createTags_main sdk key tenant (YamlTags configs) w
    = (Ok tt, w',
       [EvClient tenant key; EvOpenFile "tag_template.yaml"] ++ t
       ++ summary_line created :: ((λ n, EvPrint ("- " +:+ n)) <$> created))
    ∧ ∀ n, n ∈ created →
           ∃ d, tag_def_name d = n ∧ EvCreate (TagTypeDef d) None ∈ t.
Proof.
  intros Hcheck Hall.
  destruct (create_tags_loop_runs configs [] w Hall)
    as (created & w' & t & Hloop & Hcreated).
  exists created, w', t. split; [|done].
  unfold createTags_main.
  assert (AtlanClient sdk tenant key w = (Ok tt, w, [EvClient tenant key]))
    as Hclient.
  { unfold AtlanClient, bind, emit. by rewrite Hcheck. }
  rewrite (bind_after _ _ _ _ _ _ Hclient).
  assert (load_tag_config (World:=World) "tag_template.yaml" (YamlTags configs) w
          = (Ok configs, w, [EvOpenFile "tag_template.yaml"])) as Hload
    by reflexivity.
  erewrite try_except_Ok; cycle 1.
  { rewrite (bind_after _ _ _ _ _ _ Hload), (bind_after _ _ _ _ _ _ Hloop).
    rewrite (bind_after (print _) _ _ tt _ [_] eq_refl), print_tags_run.
    reflexivity. }
  reflexivity.
Qed.

End Tags.

Example createTags_skips_taken_name :
  createTags Demo.sdk
    (list_to_map [("ATLAN_API_KEY", "secret"); ("ATLAN_TENANT", "tenant")])
    (YamlTags [Demo.taken; Demo.critical]) Demo.catalog
  = (Ok tt,
     {| Demo.typedefs :=
          [CustomMetadataTypeDef Demo.ownership; TagTypeDef Demo.critical_def];
        Demo.writable := true |},
     [EvClient "tenant" "secret"; EvOpenFile "tag_template.yaml";
      EvCreate
        (TagTypeDef
           {| tag_def_name := "Ownership"; tag_def_color := Some "GREEN";
              tag_def_emoji := None; tag_def_icon := None;
              tag_def_description := None |})
        (Some (SdkError "409 Conflict: already exists"));
      error_line "Ownership" (SdkError "409 Conflict: already exists");
      EvCreate (TagTypeDef Demo.critical_def) None;
      EvPrint "Created color tag 'Critical'";
      summary_line ["Critical"];
      EvPrint "- Critical"]).
Proof. reflexivity. Qed.




(** C10, as stated, fails: an entry of unknown type that has no [name] key
    raises [KeyError] out of [create_tag_from_config], before its [try]. *)
Lemma unknown_type_without_name :
  ¬ unknown_type_handled_as_stated Demo.sdk Demo.anonymous Demo.catalog.
Proof.
  intros H. destruct H as (w' & t & Hrun).
  - exists "banner". split; [reflexivity|]. by apply (bool_decide_unpack _).
  - assert (create_tag_from_config Demo.sdk Demo.anonymous Demo.catalog
            = (Raise (KeyError "name"), Demo.catalog, [])) as Hraise
      by reflexivity.
    rewrite Hraise in Hrun. discriminate Hrun.
Qed.

(** C10, amended: for a tag entry that has a [name] and whose [type] is
    none of "color", "emoji" and "icon", [create_tag_from_config] makes no
    create call, prints the error of the unbound [tag_def] through its
    handler and returns [None]; the loop goes on with the next entry. *)
Theorem unknown_tag_type_skipped {World} (sdk : Sdk World) config ty n w :
  config !! "type" = Some ty → ty ∉ tag_types → config !! "name" = Some n →
  create_tag_from_config sdk config w
  = (Ok None, w, [error_line n (UnboundLocalError "tag_def")])
  ∧ ∀ rest created,
      create_tags_loop sdk (config :: rest) created w
      = after [error_line n (UnboundLocalError "tag_def")]
          (create_tags_loop sdk rest created w).
Proof.
  intros Hty Hunknown Hn.
  assert (create_tag_from_config sdk config w
          = (Ok None, w, [error_line n (UnboundLocalError "tag_def")]))
    as Hrun.
  { unfold create_tag_from_config, getitem. rewrite Hty, Hn.
    unfold bind at 1 2, ret at 1 2, try_except, create_tag_body.
    rewrite (bind_after _ _ _ _ _ _ (bind_tag_def_unknown sdk ty n config w Hunknown)).
    reflexivity. }
  split; [done|]. intros rest created. cbn [create_tags_loop].
  by rewrite (bind_after _ _ _ _ _ _ Hrun).
Qed.

Lemma unknown_tag_type_skipped_witness :
  create_tag_from_config Demo.sdk Demo.banner Demo.catalog
  = (Ok None, Demo.catalog,
     [error_line "Banner" (UnboundLocalError "tag_def")])
  ∧ ∀ rest created,
      create_tags_loop Demo.sdk (Demo.banner :: rest) created Demo.catalog
      = after [error_line "Banner" (UnboundLocalError "tag_def")]
          (create_tags_loop Demo.sdk rest created Demo.catalog).
Proof.
  apply (unknown_tag_type_skipped Demo.sdk Demo.banner "banner" "Banner").
  - reflexivity.
  - by apply (bool_decide_unpack _).
  - reflexivity.
Defined.

Section Environment.
Context {World : Type} (sdk : Sdk World).
Implicit Types (w : World) (t : list event) (env : gmap string string).

Lemma AtlanClient_run base_url api_key w :
  AtlanClient sdk base_url api_key w
  = (match AtlanClient_check sdk base_url api_key with
     | Some e => Raise e
     | None => Ok tt
     end, w, [EvClient base_url api_key]).
Proof.
  unfold AtlanClient, bind, emit.
  by destruct (AtlanClient_check sdk base_url api_key).
Qed.

(** Whatever follows it, the construction of the client is the first
    event of a computation that starts with it. *)
Lemma client_first {A} base_url api_key (f : unit → M World A) w :
  ∃ r w' t,
    bind (AtlanClient sdk base_url api_key) f w
    = (r, w', EvClient base_url api_key :: t).
Proof.
  pose proof (AtlanClient_run base_url api_key w) as Hrun.
  destruct (AtlanClient_check sdk base_url api_key).
  - rewrite (bind_Raise _ _ _ _ _ _ Hrun). by do 3 eexists.
  - rewrite (bind_after _ _ _ _ _ _ Hrun). unfold after. by do 3 eexists.
Qed.

Lemma load_json_from_file_data {A} path (data : list A) w :
  ∃ t0,
    load_json_from_file path (JsonData data) w = (Ok data, w, t0)
    ∧ EvOpenFile path ∈ t0 ∧ Forall no_client t0.
Proof.
  unfold load_json_from_file, warn_extension, bind, emit, print, ret.
  destruct (endswith (lower path) ".json"); eexists; (split; [done|]).
  - split; [left|]. by repeat constructor.
  - split; [right; left|]. by repeat constructor.
Qed.

Lemma data_usage_example_run {A} (data : list A) w :
  ∃ t0, data_usage_example data w = (Ok tt, w, t0) ∧ Forall no_client t0.
Proof. eexists. split; [done|]. by repeat constructor. Qed.

(** In the two JSON scripts the file is opened before the client is
    built, and the client is built from two empty literals. *)
Lemma json_script_client {A} path (data : list A)
    (loop : list A → M World unit) w :
  ∃ t0 r w' t,
    bind (load_json_from_file path (JsonData data))
      (λ loaded_data,
         bind (data_usage_example loaded_data)
           (λ _, bind (AtlanClient sdk "" "") (λ _, loop loaded_data))) w
    = (r, w', t0 ++ EvClient "" "" :: t)
    ∧ EvOpenFile path ∈ t0 ∧ Forall no_client t0.
Proof.
  destruct (load_json_from_file_data path data w) as (t1 & Hload & Hin & Ht1).
  destruct (data_usage_example_run data w) as (t2 & Husage & Ht2).
  destruct (client_first "" "" (λ _, loop data) w) as (r & w' & t & Hclient).
  exists (t1 ++ t2), r, w', t.
  rewrite (bind_after _ _ _ _ _ _ Hload), (bind_after _ _ _ _ _ _ Husage).
  rewrite Hclient. unfold after. cbn [fst snd]. rewrite <-app_assoc.
  split; [done|]. split; [apply elem_of_app; by left|].
  apply Forall_app. by split.
Qed.

End Environment.

(** C6, as stated, fails for [cm_generator.py]: with no variable set it
    loads the file, builds its client and updates the definition. *)
Lemma cm_generator_ignores_environment :
  ¬ aborts_without_credentials_as_stated
      (λ env, cm_generator Demo.sdk env "cm.json" (JsonData [Demo.item])).
Proof.
  intros H.
  assert (credentials_set ∅ = false) as Henv by reflexivity.
  destruct (H ∅ Demo.catalog _ _ _ Henv (run_eta _)) as [Hfailed _].
  assert ((cm_generator Demo.sdk ∅ "cm.json" (JsonData [Demo.item])
             Demo.catalog).1.1 = Ok tt) as Hok by reflexivity.
  by rewrite Hok in Hfailed.
Qed.

(** C6, amended: [createTags.py] reads [ATLAN_API_KEY] and [ATLAN_TENANT],
    aborts before any work when either is unset or empty, and otherwise
    builds its client from them first.  [cm_generator.py] and
    [options_generator.py] do not read the environment: they open the input
    file and then build the client from two empty literals. *)
Theorem credentials_checked_by_createTags {World} (sdk : Sdk World) :
  (∀ env yaml w,
     credentials_set env = false →
     createTags sdk env yaml w = (Raise (ValueError credentials_message), w, []))
  ∧ (∀ env yaml w,
       credentials_set env = true →
       ∃ key tenant,
         env !! "ATLAN_API_KEY" = Some key ∧ env !! "ATLAN_TENANT" = Some tenant
         ∧ createTags sdk env yaml w = createTags_main sdk key tenant yaml w
         ∧ ∃ r w' t,
             createTags_main sdk key tenant yaml w
             = (r, w', EvClient tenant key :: t))
  ∧ (∀ env path data w,
       ∃ t0 r w' t,
         cm_generator sdk env path (JsonData data) w
         = (r, w', t0 ++ EvClient "" "" :: t)
         ∧ EvOpenFile path ∈ t0 ∧ Forall no_client t0)
  ∧ (∀ env path data w,
       ∃ t0 r w' t,
         options_generator sdk env path (JsonData data) w
         = (r, w', t0 ++ EvClient "" "" :: t)
         ∧ EvOpenFile path ∈ t0 ∧ Forall no_client t0).
Proof.
  split; [|split; [|split]].
  - intros env yaml w. unfold credentials_set, createTags.
    destruct (truthy (env !! "ATLAN_API_KEY")),
      (truthy (env !! "ATLAN_TENANT")); done.
  - intros env yaml w. unfold credentials_set, createTags.
    destruct (env !! "ATLAN_API_KEY") as [key|]; [|done].
    destruct (env !! "ATLAN_TENANT") as [tenant|];
      [|by rewrite andb_false_r].
    intros [-> ->]%andb_true_iff. exists key, tenant.
    split; [done|]. split; [done|]. split; [done|]. apply client_first.
  - intros env path data w.
    exact (json_script_client sdk path data
             (λ loaded_data,
                bind (main_loop sdk loaded_data)
                  (λ _, print (newline +:+ "Script finished successfully.")))
             w).
  - intros env path data w.
    exact (json_script_client sdk path data
             (λ loaded_data,
                bind (options_loop sdk loaded_data)
                  (λ _, print (newline +:+ "Script finished successfully.")))
             w).
Qed.

Lemma credentials_checked_by_createTags_witness :
  createTags Demo.sdk (list_to_map [("ATLAN_TENANT", "tenant")])
    (YamlTags [Demo.critical]) Demo.catalog
  = (Raise (ValueError credentials_message), Demo.catalog, []).
Proof.
  apply (proj1 (credentials_checked_by_createTags Demo.sdk)). reflexivity.
Defined.

(** * Further properties of [cm_generator.py] *)

Section Shapes.
Context {World : Type} (sdk : Sdk World).
Implicit Types (w : World) (t : list event) (D : dict AttrConfig).

Lemma quiet_print msg : quiet (EvPrint msg).
Proof. left. by eexists. Qed.

Lemma quiet_search asset_type : quiet (EvSearch asset_type).
Proof. right. by eexists. Qed.

Lemma quiet_no_write ev : quiet ev → no_write ev.
Proof. by intros [[msg ->]|[ty ->]]. Qed.

Lemma emits_quiet_live_scope asset_type app :
  emits quiet (live_scope sdk asset_type app).
Proof.
  destruct app as [[|first rest]|]; cbn [live_scope];
    [apply emits_ret | | apply emits_ret].
  case_decide; [|apply emits_ret].
  apply emits_bind; [|intros; apply emits_ret].
  apply emits_remote_read, quiet_search.
Qed.

Lemma emits_quiet_overwrite_scopes e attr :
  emits quiet (overwrite_scopes sdk e attr).
Proof.
  repeat (apply emits_bind; [apply emits_quiet_live_scope | intros ?]).
  apply emits_ret.
Qed.

Lemma emits_quiet_new_attribute k attr :
  emits quiet (new_attribute sdk k attr).
Proof.
  repeat (apply emits_bind; [apply emits_quiet_live_scope | intros ?]).
  unfold AttributeDef_create.
  destruct (AttributeDef_check sdk _); [apply emits_raise | apply emits_ret].
Qed.

Lemma emits_quiet_update_loop E D defs :
  emits quiet (update_loop sdk E D defs).
Proof.
  revert D defs. induction E as [|e E IH]; intros D defs; cbn [update_loop].
  - apply emits_ret.
  - destruct (dict_get D (display_name e)); [|apply IH].
    apply emits_bind; [apply emits_quiet_overwrite_scopes | intros; apply IH].
Qed.

Lemma emits_quiet_create_loop D defs : emits quiet (create_loop sdk D defs).
Proof.
  revert defs. induction D as [|[k attr] D IH]; intros defs; cbn [create_loop].
  - apply emits_ret.
  - apply emits_bind; [apply emits_quiet_new_attribute | intros; apply IH].
Qed.

Lemma emits_quiet_reconcile existing D :
  emits quiet (reconcile sdk existing D).
Proof.
  destruct existing as [existing|]; cbn [reconcile];
    [|apply emits_quiet_create_loop].
  apply emits_bind;
    [apply emits_quiet_update_loop | intros; apply emits_quiet_create_loop].
Qed.

Lemma closed_by_quiet W t : Forall quiet t → closed_by W t.
Proof. intros Ht. exists t, []. rewrite app_nil_r. auto. Qed.

Lemma closed_by_write W ev : is_write ev = true → W ev → closed_by W [ev].
Proof. intros Hw HW. exists [], [ev]. split; [done|]. split; [done|]. eauto. Qed.

Lemma closed_by_app W t1 t2 :
  Forall quiet t1 → closed_by W t2 → closed_by W (t1 ++ t2).
Proof.
  intros Ht1 (middle & write & -> & Hm & Hw).
  exists (t1 ++ middle), write. rewrite app_assoc. split; [done|].
  split; [by apply Forall_app|done].
Qed.

(** Sequencing a quiet computation, whose results satisfy [Q], with one
    whose traces are closed. *)
Lemma closed_by_bind {A B} W (Q : A → Prop) (m : M World A)
    (f : A → M World B) w r w' t :
  emits quiet m →
  (∀ w a w1 t1, m w = (Ok a, w1, t1) → Q a) →
  (∀ a w1 r w' t2, Q a → f a w1 = (r, w', t2) → closed_by W t2) →
  bind m f w = (r, w', t) → closed_by W t.
Proof.
  intros Hm HQ Hf
    [(a & w1 & t1 & t2 & H1 & H2 & ->)|(r0 & H1 & _)]%bind_inv.
  - apply closed_by_app; [by eapply Hm|]. eapply Hf; [by eapply HQ|done].
  - apply closed_by_quiet. by eapply Hm.
Qed.

Lemma reconcile_create_names D w L w' t :
  reconcile sdk None D w = (Ok L, w', t) → names L = keys D.
Proof.
  cbn [reconcile]. intros (new & -> & Hnew)%create_loop_Ok.
  by rewrite app_nil_l, (names_created _ _ Hnew).
Qed.

(** The update branch: prints and searches, then at most the update call,
    which carries the name and the options of the definition found. *)
Lemma update_branch_closed existing item w r w' t :
  update_branch sdk existing item w = (r, w', t) →
  closed_by (λ ev, ∃ d o,
               ev = EvUpdate (CustomMetadataTypeDef d) o
               ∧ cm_display_name d = cm_display_name existing
               ∧ cm_options d = cm_options existing) t.
Proof.
  unfold update_branch.
  apply (closed_by_bind _ (λ _, True)); [apply emits_print, quiet_print|done|].
  intros _ w1 r1 w1' t1 _.
  apply (closed_by_bind _ (λ _, True)); [apply emits_quiet_reconcile|done|].
  intros defs w2 r2 w2' t2 _ [o ->]%client_typedef_update_inv.
  apply closed_by_write; [done|]. by do 2 eexists.
Qed.

(** The create branch: prints and searches, then at most the create call,
    which carries the name of the item, the default logo and one attribute
    per key of the config, in the order of the config; an item with an
    [icon] or [emoji] key makes no call. *)
Lemma create_branch_closed item w r w' t :
  create_branch sdk item w = (r, w', t) →
  closed_by (λ ev, ∃ d o,
               ev = EvCreate (CustomMetadataTypeDef d) o
               ∧ item_name item = Some (cm_display_name d)
               ∧ cm_options d = Some default_logo
               ∧ names (attribute_defs d) = keys (item_attributes item)
               ∧ item_has_icon item = false
               ∧ item_has_emoji item = false) t.
Proof.
  unfold create_branch.
  apply (closed_by_bind _ (λ _, is_Some (item_name item)));
    [apply emits_concat_name| |].
  { intros w0 msg w1 t1. unfold concat_name, raise.
    destruct (item_name item); intros Hrun; [by eexists | done]. }
  intros msg w1 r1 w1' t1 [n Hn]. rewrite Hn. cbn [default].
  apply (closed_by_bind _ (λ _, True)); [apply emits_print, quiet_print|done|].
  intros _ w2 r2 w2' t2 _.
  apply (closed_by_bind _ (λ cm_def, cm_display_name cm_def = n));
    [apply emits_CustomMetadataDef_create| |].
  { intros w0 cm_def w3 t3. unfold CustomMetadataDef_create, raise, ret.
    intros Hrun. cbn in Hrun.
    destruct (CustomMetadataDef_check sdk n); by simplify_eq. }
  intros cm_def w3 r3 w3' t3 Hcm.
  apply (closed_by_bind _ (λ defs, names defs = keys (item_attributes item)));
    [apply emits_quiet_reconcile| |].
  { intros w0 defs w4 t4. apply reconcile_create_names. }
  intros defs w4 r4 w4' t4 Hdefs.
  destruct (item_has_icon item) eqn:Hicon;
    [intros (_ & _ & ->)%ret_inv; by apply closed_by_quiet|].
  destruct (item_has_emoji item) eqn:Hemoji;
    [intros (_ & _ & ->)%ret_inv; by apply closed_by_quiet|].
  intros [o ->]%client_typedef_create_inv.
  apply closed_by_write; [done|]. do 2 eexists. split; [done|].
  cbn. by rewrite Hcm.
Qed.

End Shapes.

Section ItemTraces.
Context {World : Type} (sdk : Sdk World).
Implicit Types (w : World) (t : list event).

Lemma closed_by_write_inv W t ev :
  closed_by W t → ev ∈ t → is_write ev = true → W ev.
Proof.
  intros (middle & write & -> & Hm & Hw) [Hin|Hin]%elem_of_app Hev.
  - rewrite Forall_forall in Hm. apply Hm, quiet_no_write in Hin.
    unfold no_write in Hin. congruence.
  - destruct Hw as [->|(ev' & -> & _ & HW)]; [by apply elem_of_nil in Hin|].
    by apply list_elem_of_singleton in Hin as ->.
Qed.

Lemma closed_by_item_trace W check t :
  closed_by W t → item_trace check (check :: t).
Proof.
  intros (middle & write & -> & Hm & Hw). exists middle, write.
  split; [done|]. split; [done|].
  destruct Hw as [->|(ev & -> & Hev & _)]; eauto.
Qed.

Lemma quiet_item_trace check : item_trace check [check].
Proof. exists [], []. split; [done|]. split; [constructor|by left]. Qed.

Lemma main_item_shape item w r w' t :
  main_item sdk item w = (r, w', t) →
  item_trace (EvGetCustomMetadata (item_name item)) t.
Proof.
  rewrite main_item_routes.
  destruct (get_custom_metadata_def sdk (item_name item) w) as [[e|d] w1].
  - destruct e; try (intros [= <- <- <-]; apply quiet_item_trace).
    unfold after. intros [= <- <- <-].
    eapply closed_by_item_trace, create_branch_closed, run_eta.
  - unfold after. intros [= <- <- <-].
    eapply closed_by_item_trace, update_branch_closed, run_eta.
Qed.

(** X2: whatever the outcome of a custom-metadata item, its trace is the
    existence check, then prints and searches only, then at most one
    remote write, which is the last event. *)
Theorem main_item_trace item w r w' t :
  main_item sdk item w = (r, w', t) →
  item_trace (EvGetCustomMetadata (item_name item)) t.
Proof. apply main_item_shape. Qed.

(** X4: a create call made for an item follows a "not found" of the
    existence check and carries the name of the item, the default logo and
    one attribute per key of the config, in the order of the config; the
    item has neither an [icon] nor an [emoji] key. *)
Theorem create_call_content item w r w' t d o :
  main_item sdk item w = (r, w', t) →
  EvCreate (CustomMetadataTypeDef d) o ∈ t →
  (∃ w1, get_custom_metadata_def sdk (item_name item) w = (inl NotFoundError, w1))
  ∧ item_name item = Some (cm_display_name d)
  ∧ cm_options d = Some default_logo
  ∧ names (attribute_defs d) = keys (item_attributes item)
  ∧ item_has_icon item = false ∧ item_has_emoji item = false.
Proof.
  rewrite main_item_routes.
  destruct (get_custom_metadata_def sdk (item_name item) w) as [[e|ex] w1].
  - destruct e;
      try (intros [= <- <- <-] Hin;
           apply list_elem_of_singleton in Hin; discriminate Hin).
    unfold after. intros [= <- <- <-] [Hin|Hin]%elem_of_cons; [done|].
    pose proof (create_branch_closed sdk item w1 _ _ _ (run_eta _)) as Hc.
    destruct (closed_by_write_inv _ _ _ Hc Hin eq_refl)
      as (d' & o' & [= <- <-] & ?). split; [by eexists|done].
  - unfold after. intros [= <- <- <-] [Hin|Hin]%elem_of_cons; [done|].
    pose proof (update_branch_closed sdk ex item w1 _ _ _ (run_eta _)) as Hc.
    by destruct (closed_by_write_inv _ _ _ Hc Hin eq_refl) as (d' & o' & ? & _).
Qed.

(** X5: an update call made for an item follows an existence check that
    returned a definition, and carries the display name and the options of
    that definition, not the name of the item. *)
Theorem update_call_identity item w r w' t d o :
  main_item sdk item w = (r, w', t) →
  EvUpdate (CustomMetadataTypeDef d) o ∈ t →
  ∃ existing w1,
    get_custom_metadata_def sdk (item_name item) w = (inr existing, w1)
    ∧ cm_display_name d = cm_display_name existing
    ∧ cm_options d = cm_options existing.
Proof.
  rewrite main_item_routes.
  destruct (get_custom_metadata_def sdk (item_name item) w) as [[e|ex] w1].
  - destruct e;
      try (intros [= <- <- <-] Hin;
           apply list_elem_of_singleton in Hin; discriminate Hin).
    unfold after. intros [= <- <- <-] [Hin|Hin]%elem_of_cons; [done|].
    pose proof (create_branch_closed sdk item w1 _ _ _ (run_eta _)) as Hc.
    by destruct (closed_by_write_inv _ _ _ Hc Hin eq_refl) as (d' & o' & ? & _).
  - unfold after. intros [= <- <- <-] [Hin|Hin]%elem_of_cons; [done|].
    pose proof (update_branch_closed sdk ex item w1 _ _ _ (run_eta _)) as Hc.
    destruct (closed_by_write_inv _ _ _ Hc Hin eq_refl)
      as (d' & o' & [= <- <-] & ? & ?). by exists ex, w1.
Qed.

Lemma lookups_item_trace name t :
  item_trace (EvGetCustomMetadata name) t → lookups t = [name].
Proof.
  intros (middle & write & -> & Hm & Hw). unfold lookups.
  cbn [omap list_omap]. rewrite omap_app. f_equal.
  assert (omap (λ ev, match ev with
                      | EvGetCustomMetadata n => Some n
                      | _ => None
                      end) middle = []) as ->.
  { induction Hm as [|ev middle Hev _ IH]; [done|].
    destruct Hev as [[msg ->]|[ty ->]]; cbn [omap list_omap]; exact IH. }
  destruct Hw as [->|(ev & -> & Hev)]; [done|]. by destruct ev.
Qed.

Lemma writes_item_trace check t :
  is_write check = false → item_trace check t → (length (writes t) ≤ 1)%nat.
Proof.
  intros Hcheck (middle & write & -> & Hm & Hw). unfold writes.
  rewrite filter_cons_False by congruence. rewrite filter_app, length_app.
  assert (filter (λ ev, is_write ev = true) middle = []) as ->.
  { induction Hm as [|ev middle Hev _ IH]; [done|].
    rewrite filter_cons_False; [done|].
    apply quiet_no_write in Hev. unfold no_write in Hev. congruence. }
  destruct Hw as [->|(ev & -> & Hev)]; [cbn; lia|].
  rewrite filter_cons_True by done. cbn. lia.
Qed.

(** X3: the existence checks of a run are made for the items in file
    order, one per item: those of any run are a prefix of the names of the
    items, and those of a run that ends normally are all of them. *)
Theorem main_loop_lookups items w r w' t :
  main_loop sdk items w = (r, w', t) →
  lookups t `prefix_of` (item_name <$> items)
  ∧ (r = Ok tt → lookups t = item_name <$> items).
Proof.
  revert w r w' t.
  induction items as [|item items IH]; intros w r w' t; cbn [main_loop].
  - intros (-> & _ & ->)%ret_inv. split; [by exists []|done].
  - rewrite fmap_cons.
    intros [([] & w1 & t1 & t2 & H1 & H2 & ->)|(r0 & H1 & Hf)]%bind_inv.
    + apply main_item_shape, lookups_item_trace in H1.
      apply IH in H2 as [Hprefix Heq]. unfold lookups in *.
      rewrite omap_app, H1. cbn [app]. split.
      * by apply prefix_cons.
      * intros Hr. by rewrite Heq.
    + apply main_item_shape, lookups_item_trace in H1. rewrite H1. split.
      * apply prefix_cons, prefix_nil.
      * intros ->. by destruct r0.
Qed.

(** X6: a run makes at most one remote write per item. *)
Theorem main_loop_writes items w r w' t :
  main_loop sdk items w = (r, w', t) → (length (writes t) ≤ length items)%nat.
Proof.
  revert w r w' t.
  induction items as [|item items IH]; intros w r w' t; cbn [main_loop].
  - by intros (_ & _ & ->)%ret_inv.
  - intros [([] & w1 & t1 & t2 & H1 & H2 & ->)|(r0 & H1 & Hf)]%bind_inv.
    + apply main_item_shape, writes_item_trace in H1; [|done].
      apply IH in H2. unfold writes in *.
      rewrite filter_app, length_app. cbn [length]. lia.
    + apply main_item_shape, writes_item_trace in H1; [|done].
      cbn [length]. lia.
Qed.

End ItemTraces.

Section Searches.
Context {World : Type} (sdk : Sdk World).
Implicit Types (w : World) (t : list event) (D : dict AttrConfig).

Lemma live_scope_trace asset_type app w r w' t :
  live_scope sdk asset_type app w = (r, w', t) →
  t = if starts_with_all app then [EvSearch asset_type] else [].
Proof.
  unfold starts_with_all.
  destruct app as [[|first rest]|]; cbn [live_scope default head];
    try (rewrite bool_decide_eq_false_2 by done; by intros [= <- <- <-]).
  case_decide as Hfirst.
  - subst first. rewrite bool_decide_eq_true_2 by done.
    unfold _get_all_qualified_names, bind, remote_read.
    destruct (asset_search sdk asset_type w) as [[e|rs] w1];
      by intros [= <- <- <-].
  - rewrite bool_decide_eq_false_2 by (by intros [= ->]).
    by intros [= <- <- <-].
Qed.

Lemma overwrite_scopes_trace e attr w d w' t :
  overwrite_scopes sdk e attr w = (Ok d, w', t) → t = searches_of attr.
Proof.
  unfold overwrite_scopes, searches_of. intros H. bind_inv H. bind_inv H.
  apply ret_Ok in H as (_ & _ & ->).
  apply live_scope_trace in Hrun as ->. apply live_scope_trace in Hrun0 as ->.
  by rewrite app_nil_r.
Qed.

Lemma new_attribute_trace k attr w d w' t :
  new_attribute sdk k attr w = (Ok d, w', t) → t = searches_of attr.
Proof.
  unfold new_attribute, AttributeDef_create, searches_of.
  intros H. bind_inv H. bind_inv H.
  destruct (AttributeDef_check sdk _); [done|].
  apply ret_Ok in H as (_ & _ & ->).
  apply live_scope_trace in Hrun as ->. apply live_scope_trace in Hrun0 as ->.
  by rewrite app_nil_r.
Qed.

Lemma update_loop_trace E D defs w r w' t :
  update_loop sdk E D defs w = (Ok r, w', t) →
  t = flat_map (λ p, searches_of p.2) (matched E D).
Proof.
  revert D defs w t.
  induction E as [|e E IH]; intros D defs w t; cbn [update_loop matched].
  - by intros (_ & _ & ->)%ret_Ok.
  - destruct (dict_get D (display_name e)) as [attr|]; [|apply IH].
    intros H. bind_inv H. apply overwrite_scopes_trace in Hrun as ->.
    apply IH in H as ->. done.
Qed.

Lemma create_loop_trace D defs w L w' t :
  create_loop sdk D defs w = (Ok L, w', t) →
  t = flat_map (λ kv, searches_of kv.2) D.
Proof.
  revert defs w t.
  induction D as [|[k attr] D IH]; intros defs w t; cbn [create_loop].
  - by intros (_ & _ & ->)%ret_Ok.
  - intros H. bind_inv H. apply new_attribute_trace in Hrun as ->.
    apply IH in H as ->. done.
Qed.


(** X8: [_get_all_qualified_names] passes an error of the search on; from
    an answer it returns the set of the qualified names of the hits, in
    which a hit without a qualified name counts as the empty string. *)
Theorem qualified_names_of_hits asset_type w :
  match asset_search sdk asset_type w with
  | (inl e, w1) =>
      _get_all_qualified_names sdk asset_type w
      = (Raise e, w1, [EvSearch asset_type])
  | (inr results, w1) =>
      ∃ found,
        _get_all_qualified_names sdk asset_type w
        = (Ok found, w1, [EvSearch asset_type])
        ∧ ∀ q, q ∈ found ↔
               ∃ result, result ∈ results
                         ∧ (qualified_name result = Some q
                            ∨ (qualified_name result = None ∧ q = ""))
  end.
Proof.
  unfold _get_all_qualified_names, bind, remote_read.
  destruct (asset_search sdk asset_type w) as [[e|results] w1]; [done|].
  eexists. split; [done|]. intros q.
  rewrite elem_of_list_to_set, list_elem_of_fmap. split.
  - intros (result & -> & Hin). exists result. split; [done|].
    destruct (qualified_name result); auto.
  - intros (result & Hin & [Hq|[Hq ->]]); exists result; by rewrite Hq.
Qed.

End Searches.

Section Files.
Context {World : Type} (sdk : Sdk World).
Implicit Types (w : World) (t : list event).

(** Lines on the error stream and the opening of the file. *)
Lemma load_json_from_file_unloadable {A} path (file : JsonFile A) w :
  unloadable file →
  ∃ t,
    load_json_from_file path file w = (Exit 1, w, t)
    ∧ Forall (λ ev, (∃ msg, ev = EvStderr msg) ∨ ev = EvOpenFile path) t
    ∧ (file = NoSuchPath ∨ file = IsDirectory → EvOpenFile path ∉ t).
Proof.
  intros Hbad.
  destruct file as [| |details|details|data]; [| | | |by destruct (Hbad data)];
    unfold load_json_from_file, warn_extension, bind, emit, sys_exit, ret.
  - eexists. split; [done|]. split; [repeat constructor; eauto|].
    intros _ [[=]|[]%elem_of_nil]%elem_of_cons.
  - eexists. split; [done|]. split; [repeat constructor; eauto|].
    intros _ [[=]|[]%elem_of_nil]%elem_of_cons.
  - destruct (endswith (lower path) ".json"); eexists;
      (split; [done|]); (split; [repeat constructor; eauto|]);
      by intros [|].
  - destruct (endswith (lower path) ".json"); eexists;
      (split; [done|]); (split; [repeat constructor; eauto|]);
      by intros [|].
Qed.


End Files.

(** * Further properties of [options_generator.py] *)

Section Options.
Context {World : Type} (sdk : Sdk World).
Implicit Types (w : World) (t : list event).

Lemma emits_quiet_EnumDef_build d : emits quiet (EnumDef_build sdk d).
Proof.
  unfold EnumDef_build.
  destruct (EnumDef_check sdk d); [apply emits_raise | apply emits_ret].
Qed.

Lemma EnumDef_build_Ok d w a w1 t1 :
  EnumDef_build sdk d w = (Ok a, w1, t1) → a = d.
Proof.
  unfold EnumDef_build, raise, ret.
  destruct (EnumDef_check sdk d); intros Hrun; by simplify_eq.
Qed.

Lemma options_update_branch_closed num_def item w r w' t :
  options_update_branch sdk num_def item w = (r, w', t) →
  closed_by (λ ev, ∃ o,
               ev = EvUpdate
                      (EnumTypeDef
                         {| enum_name := enum_item_name item;
                            enum_values := enum_item_values item;
                            enum_replace_existing := Some true |}) o) t.
Proof.
  unfold options_update_branch.
  apply (closed_by_bind _ (λ _, True)); [apply emits_concat_name|done|].
  intros msg w1 r1 w1' t1 _.
  apply (closed_by_bind _ (λ _, True)); [apply emits_print, quiet_print|done|].
  intros _ w2 r2 w2' t2 _.
  eapply closed_by_bind;
    [apply emits_quiet_EnumDef_build|apply EnumDef_build_Ok|].
  intros enum_def w3 r3 w3' t3 -> [o ->]%client_typedef_update_inv.
  apply closed_by_write; [done|]. by eexists.
Qed.

Lemma options_create_branch_closed item w r w' t :
  options_create_branch sdk item w = (r, w', t) →
  closed_by (λ ev, ∃ o,
               ev = EvCreate
                      (EnumTypeDef
                         {| enum_name := enum_item_name item;
                            enum_values := enum_item_values item;
                            enum_replace_existing := None |}) o
               ∧ is_Some (enum_item_name item)) t.
Proof.
  unfold options_create_branch.
  apply (closed_by_bind _ (λ _, is_Some (enum_item_name item)));
    [apply emits_concat_name| |].
  { intros w0 msg w1 t1. unfold concat_name, raise.
    destruct (enum_item_name item); intros Hrun; [by eexists | done]. }
  intros msg w1 r1 w1' t1 Hname.
  apply (closed_by_bind _ (λ _, True)); [apply emits_print, quiet_print|done|].
  intros _ w2 r2 w2' t2 _.
  eapply closed_by_bind;
    [apply emits_quiet_EnumDef_build|apply EnumDef_build_Ok|].
  intros enum_def w3 r3 w3' t3 -> [o ->]%client_typedef_create_inv.
  apply closed_by_write; [done|]. by eexists.
Qed.

(** X9: whatever the outcome of an enumeration item, its trace is the
    existence check, then prints, then at most one remote write.  An update
    follows a check that returned a definition and a create follows a "not
    found"; either carries the name and the values of the item itself, the
    update asking to replace the existing values, and nothing of the
    definition that was found. *)
Theorem options_item_trace item w r w' t :
  options_item sdk item w = (r, w', t) →
  item_trace (EvGetByName (enum_item_name item)) t
  ∧ ∀ ev, ev ∈ t → is_write ev = true →
      (∃ o num_def w1,
         typedef_get_by_name sdk (enum_item_name item) w = (inr num_def, w1)
         ∧ ev = EvUpdate
                  (EnumTypeDef
                     {| enum_name := enum_item_name item;
                        enum_values := enum_item_values item;
                        enum_replace_existing := Some true |}) o)
      ∨ (∃ o w1,
           typedef_get_by_name sdk (enum_item_name item) w
           = (inl NotFoundError, w1)
           ∧ is_Some (enum_item_name item)
           ∧ ev = EvCreate
                    (EnumTypeDef
                       {| enum_name := enum_item_name item;
                          enum_values := enum_item_values item;
                          enum_replace_existing := None |}) o).
Proof.
  rewrite options_item_routes.
  destruct (typedef_get_by_name sdk (enum_item_name item) w)
    as [[e|num_def] w1].
  - destruct e;
      try (intros [= <- <- <-]; split; [apply quiet_item_trace|];
           intros ev ->%list_elem_of_singleton; done).
    unfold after. intros [= <- <- <-].
    pose proof (options_create_branch_closed item w1 _ _ _ (run_eta _)) as Hc.
    split; [by eapply closed_by_item_trace|].
    intros ev [->|Hin]%elem_of_cons Hev; [done|].
    destruct (closed_by_write_inv _ _ _ Hc Hin Hev) as (o & -> & Hname).
    right. by exists o, w1.
  - unfold after. intros [= <- <- <-].
    pose proof (options_update_branch_closed num_def item w1 _ _ _ (run_eta _))
      as Hc.
    split; [by eapply closed_by_item_trace|].
    intros ev [->|Hin]%elem_of_cons Hev; [done|].
    destruct (closed_by_write_inv _ _ _ Hc Hin Hev) as (o & ->).
    left. by exists o, num_def, w1.
Qed.

End Options.

(** * Further properties of [createTags.py] *)

Section TagEntries.
Context {World : Type} (sdk : Sdk World).
Implicit Types (w : World) (t : list event) (config : gmap string string).

Lemma bind_tag_def_content ty n config w d w' t :
  config !! "type" = Some ty → config !! "name" = Some n →
  bind_tag_def sdk ty n config w = (Ok (Some d), w', t) →
  tag_def_from config d.
Proof.
  intros Hty Hn. unfold tag_def_from. rewrite Hty, Hn.
  unfold bind_tag_def, getitem, AtlanTagColor_getitem, AtlanIcon_call,
    AtlanTagDef_create, bind, ret, raise.
  repeat case_decide; repeat case_match; intros; simplify_eq; cbn;
    (split; [done|]);
    first [ left; by repeat split
          | right; left; by repeat split
          | right; right; by repeat split ].
Qed.

(** The body of the [try]: nothing happened, or one create call was made
    for the definition built from the entry. *)
Lemma create_tag_body_trace ty n config w r w' t :
  config !! "type" = Some ty → config !! "name" = Some n →
  create_tag_body sdk ty n config w = (r, w', t) →
  (w' = w ∧ t = [] ∧ ∃ e, r = Raise e)
  ∨ ∃ d, tag_def_from config d
         ∧ ((∃ e, r = Raise e ∧ t = [EvCreate (TagTypeDef d) (Some e)])
            ∨ (r = Ok (Some n)
               ∧ t = [EvCreate (TagTypeDef d) None;
                      EvPrint ("Created " +:+ ty +:+ " tag '" +:+ n +:+ "'")])).
Proof.
  intros Hty Hn. unfold create_tag_body, bind.
  destruct (bind_tag_def sdk ty n config w) as [[rb wb] tb] eqn:Hb.
  pose proof (bind_tag_def_cases _ _ _ _ _ _ _ _ Hb)
    as (-> & -> & [->|[(d & -> & Hd)|[e ->]]]).
  - cbn. intros [= <- <- <-]. left. eauto.
  - apply bind_tag_def_content in Hb; [|done..].
    cbn. unfold client_typedef_create.
    destruct (typedef_create sdk (TagTypeDef d) w) as [[e|] w1].
    + intros [= <- <- <-]. right. exists d. split; [done|]. left. eauto.
    + cbn. intros [= <- <- <-]. right. exists d. split; [done|]. by right.
  - intros [= <- <- <-]. left. eauto.
Qed.

Lemma create_tag_from_config_shape config w r w' t :
  create_tag_from_config sdk config w = (r, w', t) →
  (w' = w ∧ Forall is_print t)
  ∨ ∃ d o rest,
      t = EvCreate (TagTypeDef d) o :: rest
      ∧ Forall is_print rest ∧ tag_def_from config d.
Proof.
  unfold create_tag_from_config, getitem.
  destruct (config !! "type") as [ty|] eqn:Hty;
    [|intros [= <- <- <-]; left; by split].
  destruct (config !! "name") as [n|] eqn:Hn;
    [|intros [= <- <- <-]; left; by split].
  unfold bind at 1 2, ret at 1 2, try_except.
  destruct (create_tag_body sdk ty n config w) as [[rb wb] tb] eqn:Hb.
  destruct (create_tag_body_trace _ _ _ _ _ _ _ Hty Hn Hb)
    as [(-> & -> & e & ->)|(d & Hd & [(e & -> & ->)|[-> ->]])];
    cbn; intros [= <- <- <-].
  - left. split; [done|]. repeat constructor. by eexists.
  - right. exists d, (Some e), [error_line n e].
    split; [done|]. split; [|done]. repeat constructor. by eexists.
  - right. do 3 eexists. split; [done|]. split; [|done].
    repeat constructor. by eexists.
Qed.

(** X10: one tag entry leads to at most one remote call.  Either no call
    is made and the catalog is as before, or the first event is one create
    call for the definition built from the entry (its name, and per type
    its colour, emoji, or icon and description), followed by prints only. *)
Theorem tag_entry_one_create config w r w' t :
  create_tag_from_config sdk config w = (r, w', t) →
  (w' = w ∧ Forall is_print t)
  ∨ ∃ d o rest,
      t = EvCreate (TagTypeDef d) o :: rest
      ∧ Forall is_print rest ∧ tag_def_from config d.
Proof. apply create_tag_from_config_shape. Qed.

(** X11: an icon entry without a [description] is not created: the
    definition is built and accepted by the SDK, then the missing key
    raises, the handler logs it and no remote call is made. *)
Theorem icon_without_description config n icon w :
  config !! "type" = Some "icon" → config !! "name" = Some n →
  config !! "icon_name" = Some icon → AtlanIcon_member sdk icon = true →
  AtlanTagDef_check sdk
    {| tag_def_name := n; tag_def_color := None; tag_def_emoji := None;
       tag_def_icon := Some icon; tag_def_description := None |} = None →
  config !! "description" = None →
  create_tag_from_config sdk config w
  = (Ok None, w, [error_line n (KeyError "description")]).
Proof.
  intros Hty Hn Hicon Hmember Hcheck Hdescr.
  unfold create_tag_from_config, create_tag_body, bind_tag_def, getitem,
    AtlanIcon_call, AtlanTagDef_create, try_except, bind, ret, raise.
  rewrite Hty, Hn, Hicon, Hdescr. cbn. rewrite Hmember. cbn.
  rewrite Hcheck. reflexivity.
Qed.

(** X12: a tag with the empty name whose create call is made is not
    collected: the loop goes on with the list of created tags as it was,
    so the summary does not count it. *)
Theorem empty_name_not_collected config rest created w res w1 t1 :
  config !! "name" = Some "" →
  create_tag_from_config sdk config w = (Ok res, w1, t1) →
  create_tags_loop sdk (config :: rest) created w
  = after t1 (create_tags_loop sdk rest created w1).
Proof.
  intros Hn Hrun. cbn [create_tags_loop].
  rewrite (bind_after _ _ _ _ _ _ Hrun).
  assert (truthy res = false) as ->; [|done].
  unfold create_tag_from_config, getitem in Hrun. rewrite Hn in Hrun.
  destruct (config !! "type") as [ty|]; [|done].
  unfold bind at 1 2, ret at 1 2, try_except in Hrun.
  destruct (create_tag_body sdk ty "" config w) as [[rb wb] tb] eqn:Hb.
  apply create_tag_body_cases in Hb as [(-> & _)|(e & -> & _)];
    cbn in Hrun; by simplify_eq.
Qed.

End TagEntries.

Section TagRuns.
Context {World : Type} (sdk : Sdk World).
Implicit Types (w : World) (t : list event) (config : gmap string string).

Lemma try_except_Raise {A} (m : M World A) h w e w1 t1 :
  m w = (Raise e, w1, t1) → try_except m h w = after t1 (h e w1).
Proof. unfold try_except, after. intros ->. by destruct (h e w1) as [[??]?]. Qed.

(** The key whose absence stops [create_tag_from_config] before its
    [try]. *)
Lemma create_tag_from_config_missing_key config :
  ¬ has_type_and_name config →
  ∃ k, (k = "type" ∨ k = "name")
       ∧ config !! k = None
       ∧ ∀ w, create_tag_from_config sdk config w = (Raise (KeyError k), w, []).
Proof.
  intros Hbad. unfold create_tag_from_config, getitem.
  destruct (config !! "type") as [ty|] eqn:Hty; [|exists "type"; eauto].
  destruct (config !! "name") as [n|] eqn:Hn; [|exists "name"; eauto].
  destruct Hbad. split; by eexists.
Qed.

Lemma create_tags_loop_stops pre bad rest created0 w k :
  Forall has_type_and_name pre →
  (∀ w, create_tag_from_config sdk bad w = (Raise (KeyError k), w, [])) →
  ∃ created w' t,
    create_tags_loop sdk pre created0 w = (Ok created, w', t)
    ∧ create_tags_loop sdk (pre ++ bad :: rest) created0 w
      = (Raise (KeyError k), w', t).
Proof.
  intros Hpre Hbad. revert created0 w.
  induction Hpre as [|config pre [[ty Hty] [n Hn]] _ IH]; intros created0 w.
  - exists created0, w, []. split; [done|].
    cbn [app create_tags_loop]. by rewrite (bind_Raise _ _ _ _ _ _ (Hbad w)).
  - destruct (create_tag_from_config_cases sdk config ty n w Hty Hn)
      as (res & w1 & t1 & Hrun & _).
    cbn [app create_tags_loop]. rewrite !(bind_after _ _ _ _ _ _ Hrun).
    destruct (IH (if truthy res then created0 ++ [default "" res]
                  else created0) w1) as (created & w' & t & -> & ->).
    by exists created, w', (t1 ++ t).
Qed.

(** X13: an entry without a [type] or a [name] ends the loop of [main]:
    the entries before it are processed, the [KeyError] reaches the outer
    handler, which prints it, and neither a later entry is tried nor the
    summary printed; [main] itself ends normally. *)
Theorem missing_key_ends_run key tenant pre bad rest w :
  AtlanClient_check sdk tenant key = None →
  Forall has_type_and_name pre →
  ¬ has_type_and_name bad →
  ∃ k created w' t,
    (k = "type" ∨ k = "name") ∧ bad !! k = None
    ∧ create_tags_loop sdk pre [] w = (Ok created, w', t)
    ∧ createTags_main sdk key tenant (YamlTags (pre ++ bad :: rest)) w
      = (Ok tt, w',
         [EvClient tenant key; EvOpenFile "tag_template.yaml"] ++ t
         ++ [abort_line (KeyError k)]).
Proof.
  intros Hcheck Hpre Hbad.
  destruct (create_tag_from_config_missing_key bad Hbad)
    as (k & Hk & Hnone & Hraise).
  destruct (create_tags_loop_stops pre bad rest [] w k Hpre Hraise)
    as (created & w' & t & Hloop & Hstop).
  exists k, created, w', t. split; [done|]. split; [done|]. split; [done|].
  unfold createTags_main.
  assert (AtlanClient sdk tenant key w = (Ok tt, w, [EvClient tenant key]))
    as Hclient.
  { unfold AtlanClient, bind, emit. by rewrite Hcheck. }
  rewrite (bind_after _ _ _ _ _ _ Hclient).
  assert (load_tag_config (World:=World) "tag_template.yaml"
            (YamlTags (pre ++ bad :: rest)) w
          = (Ok (pre ++ bad :: rest), w, [EvOpenFile "tag_template.yaml"]))
    as Hload by reflexivity.
  erewrite try_except_Raise; cycle 1.
  { rewrite (bind_after _ _ _ _ _ _ Hload).
    rewrite (bind_Raise _ _ _ _ _ _ Hstop). reflexivity. }
  unfold after, abort_line, print, emit. cbn [fst snd].
  by rewrite <-app_assoc.
Qed.

(** X14: when the YAML file is missing or has no [tags] key, [main] prints
    the error and ends normally, having opened the file and made no remote
    call; when the client cannot be built the exception leaves [main]
    before the file is opened. *)
Theorem yaml_errors_end_main key tenant w :
  (AtlanClient_check sdk tenant key = None →
   createTags_main sdk key tenant YamlMissing w
   = (Ok tt, w,
      [EvClient tenant key; EvOpenFile "tag_template.yaml";
       abort_line (OSError "No such file or directory")])
   ∧ createTags_main sdk key tenant YamlWithoutTags w
     = (Ok tt, w,
        [EvClient tenant key; EvOpenFile "tag_template.yaml";
         abort_line (ValueError "YAML file must contain a 'tags' list")]))
  ∧ (∀ e yaml,
       AtlanClient_check sdk tenant key = Some e →
       createTags_main sdk key tenant yaml w
       = (Raise e, w, [EvClient tenant key])).
Proof.
  split.
  - intros Hcheck.
    unfold createTags_main, AtlanClient, load_tag_config, try_except, bind,
      emit. rewrite Hcheck. by split.
  - intros e yaml Hcheck.
    unfold createTags_main, AtlanClient, bind, emit. by rewrite Hcheck.
Qed.

Lemma tag_script_print ev : is_print ev → tag_script_event ev.
Proof. by left. Qed.

Lemma emits_create_tag_from_config config :
  emits tag_script_event (create_tag_from_config sdk config).
Proof.
  intros w r w' t
    [[_ Ht]|(d & o & rest & -> & Ht & _)]%create_tag_from_config_shape.
  - eapply Forall_impl; [done|apply tag_script_print].
  - constructor; [do 3 right; by do 2 eexists|].
    eapply Forall_impl; [done|apply tag_script_print].
Qed.

Lemma emits_create_tags_loop configs created :
  emits tag_script_event (create_tags_loop sdk configs created).
Proof.
  revert created.
  induction configs as [|config configs IH]; intros created;
    cbn [create_tags_loop]; [apply emits_ret|].
  apply emits_bind; [apply emits_create_tag_from_config | intros; apply IH].
Qed.

Lemma emits_print_tags created :
  emits (World:=World) tag_script_event (print_tags created).
Proof.
  induction created as [|tag created IH]; cbn [print_tags]; [apply emits_ret|].
  apply emits_bind; [|intros; apply IH].
  apply emits_print, tag_script_print. by eexists.
Qed.

(** X15: [createTags.py] only ever prints, builds its client, opens the
    YAML file and creates tag definitions: whatever the environment, the
    file and the catalog, it makes no update, no lookup and no search, and
    creates no other kind of definition. *)
Theorem createTags_only_creates_tags env yaml :
  emits tag_script_event (createTags sdk env yaml).
Proof.
  unfold createTags.
  destruct (negb _ || negb _); [apply emits_raise|].
  unfold createTags_main, AtlanClient.
  apply emits_bind.
  { apply emits_bind.
    - apply emits_emit. right. left. by do 2 eexists.
    - intros _. destruct (AtlanClient_check sdk _ _);
        [apply emits_raise | apply emits_ret]. }
  intros _. apply emits_try_except.
  - apply emits_bind.
    { unfold load_tag_config. apply emits_bind.
      - apply emits_emit. do 2 right. left. by eexists.
      - intros _. destruct yaml;
          [apply emits_raise | apply emits_raise | apply emits_ret]. }
    intros tag_configs. apply emits_bind; [apply emits_create_tags_loop|].
    intros created_tags. apply emits_bind; [|intros; apply emits_print_tags].
    apply emits_print, tag_script_print. by eexists.
  - intros e. apply emits_print, tag_script_print. by eexists.
Qed.

Lemma writes_tag_entry config w r w' t :
  create_tag_from_config sdk config w = (r, w', t) →
  (length (writes t) ≤ 1)%nat.
Proof.
  assert (∀ l, Forall is_print l → writes l = []) as Hprints.
  { intros l Hl. unfold writes. induction Hl as [|ev l [msg ->] _ IH]; [done|].
    by rewrite filter_cons_False. }
  intros [[_ Ht]|(d & o & rest & -> & Ht & _)]%create_tag_from_config_shape.
  - rewrite (Hprints _ Ht). cbn. lia.
  - unfold writes. rewrite filter_cons_True by done.
    fold (writes rest). rewrite (Hprints _ Ht). cbn. lia.
Qed.

(** X16: the loop over the tag entries makes at most one remote call per
    entry, however it ends. *)
Theorem create_tags_loop_writes configs created w r w' t :
  create_tags_loop sdk configs created w = (r, w', t) →
  (length (writes t) ≤ length configs)%nat.
Proof.
  revert created w r w' t.
  induction configs as [|config configs IH]; intros created w r w' t;
    cbn [create_tags_loop].
  - by intros (_ & _ & ->)%ret_inv.
  - intros [(res & w1 & t1 & t2 & H1 & H2 & ->)|(r0 & H1 & Hf)]%bind_inv.
    + apply writes_tag_entry in H1. apply IH in H2. unfold writes in *.
      rewrite filter_app, length_app. cbn [length]. lia.
    + apply writes_tag_entry in H1. cbn [length]. lia.
Qed.

End TagRuns.

(** * The further properties at work on the small catalog *)

Lemma sample_loop_run :
  main_loop Demo.sdk [Demo.item; Sample.quality] Demo.catalog
  = (Ok tt, Sample.both,
     [EvGetCustomMetadata (Some "Ownership");
      EvPrint "Updating Ownership";
      EvUpdate (CustomMetadataTypeDef Demo.ownership_reconciled) None;
      EvGetCustomMetadata (Some "Quality");
      EvPrint "Creating Quality";
      EvCreate (CustomMetadataTypeDef Sample.quality_def) None]).
Proof. reflexivity. Qed.

Lemma sample_create_run :
  main_item Demo.sdk Sample.quality Demo.catalog
  = (Ok tt,
     {| Demo.typedefs :=
          [CustomMetadataTypeDef Demo.ownership;
           CustomMetadataTypeDef Sample.quality_def];
        Demo.writable := true |},
     [EvGetCustomMetadata (Some "Quality");
      EvPrint "Creating Quality";
      EvCreate (CustomMetadataTypeDef Sample.quality_def) None]).
Proof. reflexivity. Qed.

Lemma sample_update_run :
  main_item Demo.sdk Demo.item Demo.catalog
  = (Ok tt, Demo.updated_catalog,
     [EvGetCustomMetadata (Some "Ownership");
      EvPrint "Updating Ownership";
      EvUpdate (CustomMetadataTypeDef Demo.ownership_reconciled) None]).
Proof. reflexivity. Qed.


Lemma main_item_trace_witness :
  item_trace (EvGetCustomMetadata (Some "Ownership"))
    [EvGetCustomMetadata (Some "Ownership");
     EvPrint "Updating Ownership";
     EvUpdate (CustomMetadataTypeDef Demo.ownership_reconciled) None].
Proof.
  apply (main_item_trace Demo.sdk Demo.item Demo.catalog (Ok tt)
           Demo.updated_catalog).
  exact sample_update_run.
Defined.

Lemma main_loop_lookups_witness :
  lookups
    [EvGetCustomMetadata (Some "Ownership");
     EvPrint "Updating Ownership";
     EvUpdate (CustomMetadataTypeDef Demo.ownership_reconciled) None;
     EvGetCustomMetadata (Some "Quality");
     EvPrint "Creating Quality";
     EvCreate (CustomMetadataTypeDef Sample.quality_def) None]
  `prefix_of` (item_name <$> [Demo.item; Sample.quality])
  ∧ (Ok tt = Ok tt →
     lookups
       [EvGetCustomMetadata (Some "Ownership");
        EvPrint "Updating Ownership";
        EvUpdate (CustomMetadataTypeDef Demo.ownership_reconciled) None;
        EvGetCustomMetadata (Some "Quality");
        EvPrint "Creating Quality";
        EvCreate (CustomMetadataTypeDef Sample.quality_def) None]
     = item_name <$> [Demo.item; Sample.quality]).
Proof.
  apply (main_loop_lookups Demo.sdk [Demo.item; Sample.quality] Demo.catalog
           (Ok tt) Sample.both).
  exact sample_loop_run.
Defined.

Lemma create_call_content_witness :
  (∃ w1, get_custom_metadata_def Demo.sdk (item_name Sample.quality)
           Demo.catalog = (inl NotFoundError, w1))
  ∧ item_name Sample.quality = Some (cm_display_name Sample.quality_def)
  ∧ cm_options Sample.quality_def = Some default_logo
  ∧ names (attribute_defs Sample.quality_def)
    = keys (item_attributes Sample.quality)
  ∧ item_has_icon Sample.quality = false
  ∧ item_has_emoji Sample.quality = false.
Proof.
  apply (create_call_content Demo.sdk Sample.quality Demo.catalog _ _ _
           Sample.quality_def None sample_create_run).
  do 2 right. left.
Defined.

Lemma update_call_identity_witness :
  ∃ existing w1,
    get_custom_metadata_def Demo.sdk (item_name Demo.item) Demo.catalog
    = (inr existing, w1)
    ∧ cm_display_name Demo.ownership_reconciled = cm_display_name existing
    ∧ cm_options Demo.ownership_reconciled = cm_options existing.
Proof.
  apply (update_call_identity Demo.sdk Demo.item Demo.catalog _ _ _
           Demo.ownership_reconciled None sample_update_run).
  do 2 right. left.
Defined.

Lemma main_loop_writes_witness :
  (length
     (writes
        [EvGetCustomMetadata (Some "Ownership");
         EvPrint "Updating Ownership";
         EvUpdate (CustomMetadataTypeDef Demo.ownership_reconciled) None;
         EvGetCustomMetadata (Some "Quality");
         EvPrint "Creating Quality";
         EvCreate (CustomMetadataTypeDef Sample.quality_def) None])
   ≤ length [Demo.item; Sample.quality])%nat.
Proof.
  apply (main_loop_writes Demo.sdk [Demo.item; Sample.quality] Demo.catalog
           (Ok tt) Sample.both).
  exact sample_loop_run.
Defined.


Lemma options_item_trace_witness :
  item_trace (EvGetByName (Some "Status"))
    [EvGetByName (Some "Status"); EvPrint "Creating Status";
     EvCreate (EnumTypeDef Sample.status_def) None].
Proof.
  apply (options_item_trace Demo.sdk Sample.status Demo.catalog (Ok tt)
           {| Demo.typedefs :=
                [CustomMetadataTypeDef Demo.ownership;
                 EnumTypeDef Sample.status_def];
              Demo.writable := true |}).
  reflexivity.
Defined.

Lemma tag_entry_one_create_witness :
  ({| Demo.typedefs :=
        [CustomMetadataTypeDef Demo.ownership; TagTypeDef Demo.critical_def];
      Demo.writable := true |} = Demo.catalog
   ∧ Forall is_print
       [EvCreate (TagTypeDef Demo.critical_def) None;
        EvPrint "Created color tag 'Critical'"])
  ∨ ∃ d o rest,
      [EvCreate (TagTypeDef Demo.critical_def) None;
       EvPrint "Created color tag 'Critical'"]
      = EvCreate (TagTypeDef d) o :: rest
      ∧ Forall is_print rest ∧ tag_def_from Demo.critical d.
Proof.
  apply (tag_entry_one_create Demo.sdk Demo.critical Demo.catalog
           (Ok (Some "Critical"))).
  reflexivity.
Defined.

Lemma icon_without_description_witness :
  create_tag_from_config Demo.sdk Sample.database Demo.catalog
  = (Ok None, Demo.catalog, [error_line "Database" (KeyError "description")]).
Proof.
  apply (icon_without_description Demo.sdk Sample.database "Database" "PhEcho");
    reflexivity.
Defined.

Lemma empty_name_not_collected_witness :
  create_tags_loop Demo.sdk [Sample.unnamed; Demo.critical] [] Demo.catalog
  = after [EvCreate (TagTypeDef Sample.unnamed_def) None;
           EvPrint "Created color tag ''"]
      (create_tags_loop Demo.sdk [Demo.critical] []
         {| Demo.typedefs :=
              [CustomMetadataTypeDef Demo.ownership;
               TagTypeDef Sample.unnamed_def];
            Demo.writable := true |}).
Proof.
  apply (empty_name_not_collected Demo.sdk Sample.unnamed [Demo.critical] []
           Demo.catalog (Some "")); reflexivity.
Defined.

Lemma missing_key_ends_run_witness :
  ∃ k created w' t,
    (k = "type" ∨ k = "name") ∧ Demo.anonymous !! k = None
    ∧ create_tags_loop Demo.sdk [Demo.critical] [] Demo.catalog
      = (Ok created, w', t)
    ∧ createTags_main Demo.sdk "secret" "tenant"
        (YamlTags ([Demo.critical] ++ Demo.anonymous :: [Demo.taken]))
        Demo.catalog
      = (Ok tt, w',
         [EvClient "tenant" "secret"; EvOpenFile "tag_template.yaml"] ++ t
         ++ [abort_line (KeyError k)]).
Proof.
  apply (missing_key_ends_run Demo.sdk "secret" "tenant" [Demo.critical]
           Demo.anonymous [Demo.taken] Demo.catalog).
  - reflexivity.
  - repeat constructor; by eexists.
  - intros [_ [n Hn]]. discriminate Hn.
Defined.

Lemma yaml_errors_end_main_witness :
  createTags_main Demo.sdk "secret" "tenant" YamlMissing Demo.catalog
  = (Ok tt, Demo.catalog,
     [EvClient "tenant" "secret"; EvOpenFile "tag_template.yaml";
      abort_line (OSError "No such file or directory")])
  ∧ createTags_main Demo.sdk "secret" "tenant" YamlWithoutTags Demo.catalog
    = (Ok tt, Demo.catalog,
       [EvClient "tenant" "secret"; EvOpenFile "tag_template.yaml";
        abort_line (ValueError "YAML file must contain a 'tags' list")]).
Proof.
  apply (proj1 (yaml_errors_end_main Demo.sdk "secret" "tenant" Demo.catalog)).
  reflexivity.
Defined.

Lemma sample_tags_run :
  create_tags_loop Demo.sdk [Demo.taken; Demo.banner; Demo.critical] []
    Demo.catalog
  = (Ok ["Critical"],
     {| Demo.typedefs :=
          [CustomMetadataTypeDef Demo.ownership; TagTypeDef Demo.critical_def];
        Demo.writable := true |},
     [EvCreate
        (TagTypeDef
           {| tag_def_name := "Ownership"; tag_def_color := Some "GREEN";
              tag_def_emoji := None; tag_def_icon := None;
              tag_def_description := None |})
        (Some (SdkError "409 Conflict: already exists"));
      error_line "Ownership" (SdkError "409 Conflict: already exists");
      error_line "Banner" (UnboundLocalError "tag_def");
      EvCreate (TagTypeDef Demo.critical_def) None;
      EvPrint "Created color tag 'Critical'"]).
Proof. reflexivity. Qed.

Lemma createTags_only_creates_tags_witness :
  Forall tag_script_event
    [EvClient "tenant" "secret"; EvOpenFile "tag_template.yaml";
     abort_line (ValueError "YAML file must contain a 'tags' list")].
Proof.
  apply (createTags_only_creates_tags Demo.sdk
           (list_to_map [("ATLAN_API_KEY", "secret"); ("ATLAN_TENANT", "tenant")])
           YamlWithoutTags Demo.catalog (Ok tt) Demo.catalog).
  reflexivity.
Defined.

Lemma create_tags_loop_writes_witness :
  (length
     (writes
        [EvCreate
           (TagTypeDef
              {| tag_def_name := "Ownership"; tag_def_color := Some "GREEN";
                 tag_def_emoji := None; tag_def_icon := None;
                 tag_def_description := None |})
           (Some (SdkError "409 Conflict: already exists"));
         error_line "Ownership" (SdkError "409 Conflict: already exists");
         error_line "Banner" (UnboundLocalError "tag_def");
         EvCreate (TagTypeDef Demo.critical_def) None;
         EvPrint "Created color tag 'Critical'"])
   ≤ length [Demo.taken; Demo.banner; Demo.critical])%nat.
Proof.
  apply (create_tags_loop_writes Demo.sdk
           [Demo.taken; Demo.banner; Demo.critical] [] Demo.catalog
           (Ok ["Critical"])
           {| Demo.typedefs :=
                [CustomMetadataTypeDef Demo.ownership;
                 TagTypeDef Demo.critical_def];
              Demo.writable := true |}).
  exact sample_tags_run.
Defined.
